(** * A shallow embedding of [server.py], the multi-threaded HTTP server

    The development follows the source file top to bottom:
    - [Py]: the Python built-ins the server calls on [str] and [bytes]
      ([split], [strip], [lower], [startswith], [in], [int], the [os.path]
      string functions), on texts whose code points are below 256 (the
      request is decoded as iso-8859-1, so bytes and characters coincide);
    - [Http]: the configuration constants and [build_response];
    - [Server]: the socket, the file system and the clock as explicit state
      and oracles, a small state-and-exception monad, and the handlers
      [recv_headers], [parse_headers], [handle_get_head], [handle_post] and
      [handle_connection];
    - [Pool]: the queue of the worker pool, one pass of the accept loop and
      the loop of a worker, as the calls on the queue take effect.

    Not modelled: [log] (it only prints), the start and the scheduling of
    the threads, failures of [sendall] and [close], and of [open] for
    writing. *)

From Stdlib Require Import String Ascii List ZArith NArith Bool Lia Arith.
From Stdlib Require Import DecimalString.
Import ListNotations.
Open Scope string_scope.
Open Scope Z_scope.

(* ================================================================== *)
(** ** Python strings *)

Module Py.

Definition CR : ascii := "013"%char.
Definition LF : ascii := "010"%char.
Definition DQUOTE : ascii := "034"%char.
Definition CRLF : string := String CR (String LF "").
Definition CRLF2 : string := CRLF ++ CRLF.
Definition DQ : string := String DQUOTE "".

Definition code (c : ascii) : Z := Z.of_N (N_of_ascii c).
Definition chr (z : Z) : ascii := ascii_of_N (Z.to_N z).

(** [len(s)] *)
Definition len (s : string) : Z := Z.of_nat (String.length s).

(** [s.startswith(pre)] *)
Definition startswith (s pre : string) : bool := String.prefix pre s.

(** [sub in s] *)
Fixpoint contains (sub s : string) : bool :=
  String.prefix sub s ||
  match s with
  | EmptyString => false
  | String _ s' => contains sub s'
  end.

Fixpoint rev_acc (s acc : string) : string :=
  match s with
  | EmptyString => acc
  | String c s' => rev_acc s' (String c acc)
  end.
Definition rev (s : string) : string := rev_acc s "".

(** [s.split(sep)] for a non-empty [sep]: the pieces between the
    non-overlapping occurrences of [sep], found left to right.  [skip]
    counts the characters of an occurrence still to be passed over and
    [cur] holds the current piece, reversed. *)
Fixpoint split_go (sep s : string) (skip : nat) (cur : string) : list string :=
  match s with
  | EmptyString => [rev cur]
  | String c s' =>
      match skip with
      | S k => split_go sep s' k cur
      | O =>
          if String.prefix sep s
          then rev cur :: split_go sep s' (String.length sep - 1) ""
          else split_go sep s' O (String c cur)
      end
  end.
Definition split (sep s : string) : list string := split_go sep s O "".

(** [s.split(sep, 1)] when [sep in s]: the text before the first occurrence
    and the text after it; [None] when [sep] does not occur (then Python
    returns the one-element list [[s]]). *)
Fixpoint split1_go (sep s cur : string) : option (string * string) :=
  if String.prefix sep s
  then Some (rev cur, substring (String.length sep) (String.length s) s)
  else match s with
       | EmptyString => None
       | String c s' => split1_go sep s' (String c cur)
       end.
Definition split1 (sep s : string) : option (string * string) :=
  split1_go sep s "".

(** [c.isspace()] on code points below 256. *)
Definition isspace (c : ascii) : bool :=
  let n := code c in
  ((9 <=? n) && (n <=? 13)) || ((28 <=? n) && (n <=? 32))
  || (n =? 133) || (n =? 160).

(** [s.split()]: the maximal runs of non-whitespace characters. *)
Fixpoint split_ws_go (s cur : string) : list string :=
  match s with
  | EmptyString =>
      match cur with EmptyString => [] | _ => [rev cur] end
  | String c s' =>
      if isspace c
      then match cur with
           | EmptyString => split_ws_go s' ""
           | _ => rev cur :: split_ws_go s' ""
           end
      else split_ws_go s' (String c cur)
  end.
Definition split_ws (s : string) : list string := split_ws_go s "".

Fixpoint lstrip (s : string) : string :=
  match s with
  | String c s' => if isspace c then lstrip s' else s
  | EmptyString => ""
  end.
(** [s.strip()] *)
Definition strip (s : string) : string := rev (lstrip (rev (lstrip s))).

(** [s.lstrip(c)] for a one-character argument. *)
Fixpoint lstrip_char (ch : ascii) (s : string) : string :=
  match s with
  | String c s' => if Ascii.eqb c ch then lstrip_char ch s' else s
  | EmptyString => ""
  end.

(** [c.lower()] on code points below 256: A-Z, and the Latin-1 capitals
    U+00C0..U+00DE except the multiplication sign U+00D7. *)
Definition lower_char (c : ascii) : ascii :=
  let n := code c in
  if ((65 <=? n) && (n <=? 90))
     || ((192 <=? n) && (n <=? 222) && negb (n =? 215))
  then chr (n + 32) else c.
Fixpoint lower (s : string) : string :=
  match s with
  | EmptyString => ""
  | String c s' => String (lower_char c) (lower s')
  end.

(** [s.rfind(ch)], [-1] when absent. *)
Fixpoint rfind_go (ch : ascii) (s : string) (i : Z) (found : Z) : Z :=
  match s with
  | EmptyString => found
  | String c s' => rfind_go ch s' (i + 1) (if Ascii.eqb c ch then i else found)
  end.
Definition rfind (ch : ascii) (s : string) : Z := rfind_go ch s 0 (-1).

(** [s[i:]] and [s[i:j]] for [0 <= i <= j]. *)
Definition slice_from (i : Z) (s : string) : string :=
  substring (Z.to_nat i) (String.length s) s.
Definition slice (i j : Z) (s : string) : string :=
  substring (Z.to_nat i) (Z.to_nat (j - i)) s.

Fixpoint all_dots (s : string) : bool :=
  match s with
  | EmptyString => true
  | String c s' => Ascii.eqb c "." && all_dots s'
  end.

(** [os.path.splitext(p)] (posixpath, through [genericpath._splitext]): the
    extension starts at the last dot, when that dot comes after the last
    slash and some character between them is not a dot. *)
Definition splitext (p : string) : string * string :=
  let sepIndex := rfind "/" p in
  let dotIndex := rfind "." p in
  if (sepIndex <? dotIndex) && negb (all_dots (slice (sepIndex + 1) dotIndex p))
  then (slice 0 dotIndex p, slice_from dotIndex p)
  else (p, "").

(** [os.path.basename(p)] *)
Definition basename (p : string) : string := slice_from (rfind "/" p + 1) p.

Definition endswith_slash (s : string) : bool :=
  match rev s with String c _ => Ascii.eqb c "/" | EmptyString => false end.

(** [os.path.join(a, b)] *)
Definition path_join (a b : string) : string :=
  if startswith b "/" then b
  else if (a =? "")%string || endswith_slash a then a ++ b
  else a ++ "/" ++ b.

(** [str(n)] for an integer. *)
Definition str (z : Z) : string :=
  match z with
  | Z0 => "0"
  | Zpos p => NilZero.string_of_uint (Pos.to_uint p)
  | Zneg p => "-" ++ NilZero.string_of_uint (Pos.to_uint p)
  end.

Definition digit_of (c : ascii) : option Z :=
  let n := code c in
  if (48 <=? n) && (n <=? 57) then Some (n - 48) else None.

(** The digits of an [int] literal: decimal digits, single underscores
    allowed between two digits. *)
Fixpoint int_digits (s : string) (acc : Z) (after_digit : bool) : option Z :=
  match s with
  | EmptyString => if after_digit then Some acc else None
  | String c s' =>
      match digit_of c with
      | Some d => int_digits s' (10 * acc + d) true
      | None =>
          if Ascii.eqb c "_" && after_digit then int_digits s' acc false
          else None
      end
  end.

(** The blanks [int] skips around a literal: the ASCII white space, and
    the code points U+0085 and U+00A0, which it reads as spaces (U+001C to
    U+001F, which [strip] removes, it does not skip). *)
Definition int_blank (c : ascii) : bool :=
  let n := code c in
  ((9 <=? n) && (n <=? 13)) || (n =? 32) || (n =? 133) || (n =? 160).

Fixpoint int_lstrip (s : string) : string :=
  match s with
  | String c s' => if int_blank c then int_lstrip s' else s
  | EmptyString => ""
  end.

Fixpoint count_digits (s : string) : Z :=
  match s with
  | EmptyString => 0
  | String c s' =>
      (match digit_of c with Some _ => 1 | None => 0 end) + count_digits s'
  end.

(** [int(s)] for a [str] argument; [None] stands for [ValueError], which
    a literal of more than 4300 digits raises too (the default of
    [sys.int_max_str_digits]). *)
Definition int (s : string) : option Z :=
  if 4300 <? count_digits s then None
  else
    match rev (int_lstrip (rev (int_lstrip s))) with
    | String "-" r => option_map Z.opp (int_digits r 0 false)
    | String "+" r => int_digits r 0 false
    | t => int_digits t 0 false
    end.

Definition NUL : ascii := "000"%char.

(** Whether a NUL byte occurs in [s]. *)
Fixpoint has_nul (s : string) : bool :=
  match s with
  | EmptyString => false
  | String c s' => Ascii.eqb c NUL || has_nul s'
  end.

(** [s.encode()] (UTF-8) on code points below 256. *)
Fixpoint encode (s : string) : string :=
  match s with
  | EmptyString => ""
  | String c s' =>
      let n := code c in
      if n <? 128 then String c (encode s')
      else String (chr (192 + n / 64)) (String (chr (128 + n mod 64)) (encode s'))
  end.

End Py.

(* ================================================================== *)
(** ** Configuration and response framing *)

Module Http.
Import Py.

Definition HOST : string := "127.0.0.1".
Definition PORT : Z := 8080.
Definition CONN_TIMEOUT : Z := 30.
Definition MAX_REQUESTS_PER_CONN : nat := 100.
Definition MAX_HEADER_SIZE : Z := 8192.
Definition RESOURCES_DIR : string := "resources".
Definition UPLOADS_DIR : string := path_join RESOURCES_DIR "uploads".
(** The size passed to [f.read] when a file is streamed. *)
Definition FILE_CHUNK : nat := Z.to_nat 8192.

(** A Python [dict] from [str] to [str]: insertion order is kept, and
    assigning to a key that is present replaces its value in place. *)
Definition dict : Type := list (string * string).

Fixpoint dict_set (k v : string) (d : dict) : dict :=
  match d with
  | [] => [(k, v)]
  | (k', v') :: r =>
      if (k' =? k)%string then (k', v) :: r else (k', v') :: dict_set k v r
  end.

Fixpoint dict_find (k : string) (d : dict) : option string :=
  match d with
  | [] => None
  | (k', v') :: r => if (k' =? k)%string then Some v' else dict_find k r
  end.

(** [k in d] *)
Definition dict_mem (k : string) (d : dict) : bool :=
  match dict_find k d with Some _ => true | None => false end.

(** [d.get(k, default)] *)
Definition dict_get (k : string) (d : dict) (default : string) : string :=
  match dict_find k d with Some v => v | None => default end.

Definition header_lines (headers : dict) : string :=
  fold_left (fun acc kv => acc ++ fst kv ++ ": " ++ snd kv ++ CRLF) headers "".

Definition build_response (status : Z) (reason : string) (headers : dict)
    (body : string) : string :=
  let status_line := "HTTP/1.1 " ++ str status ++ " " ++ reason ++ CRLF in
  encode (status_line ++ header_lines headers ++ CRLF) ++ body.

End Http.

(* ================================================================== *)
(** ** The connection handler *)

Module Server.
Import Py Http.

(** A parsed JSON document, as the codec hands it over. *)
#[warnings="-register-all"]
Inductive json : Type :=
| JNull
| JBool (b : bool)
| JNum (literal : string)
| JStr (s : string)
| JArr (items : list json)
| JObj (members : list (string * json)).

(** What [os.path.exists], [os.path.getsize], [open(_, "rb")] and
    [f.read()] find at a path. *)
Inductive file : Type :=
| Missing                  (* os.path.exists is False *)
| Unreadable (size : Z)    (* the file is there, of that size; open raises *)
| Holds (body : string).   (* the file is there and f.read() gives body *)

(** What the handlers consult and cannot decide by themselves: the file
    system under the serving root (read-only for GET and HEAD), the JSON
    codec, the clock and the random source.  The k-th reading of the clock
    or of the random source is the oracle's value at [k]. *)
Record env : Type := mkEnv {
  realpath : string -> string;              (* os.path.realpath, on a path
                                               without NUL byte *)
  isdir : string -> bool;                   (* os.path.isdir *)
  file_content : string -> file;            (* the file at a path *)
  utf8_decode : string -> option string;    (* bytes.decode("utf-8") *)
  json_loads : string -> option json;       (* json.loads *)
  json_dump : json -> string;               (* json.dump(_, f, indent=2) *)
  time_at : nat -> Z;                       (* time.time(), in seconds *)
  date_at : nat -> string;                  (* formatdate(usegmt=True) *)
  utcstamp_at : nat -> string;              (* utcnow().strftime(...) *)
  random_id_at : nat -> string              (* random_id() *)
}.

(** One call of [sock.recv]: the bytes it returns (the empty string is how
    Python reports that the peer closed) or a [socket.timeout].  The size
    passed to [recv] bounds the length of what it returns and plays no other
    part, so it is left out. *)
Inductive recv_event : Type :=
| Chunk (data : string)
| TimedOut.

(** The state a connection handler works on.  [inbox] lists the outcomes of
    the [recv] calls still to come; once it is exhausted the peer has
    closed and every [recv] returns the empty string.  [sent] lists the
    arguments of the [sendall] calls so far, [written] the files created,
    [ticks] counts the readings of the clock and the random source. *)
Record world : Type := mkWorld {
  inbox : list recv_event;
  sent : list string;
  closed : bool;
  written : list (string * string);
  ticks : nat
}.

Definition set_inbox (i : list recv_event) (w : world) : world :=
  mkWorld i (sent w) (closed w) (written w) (ticks w).
Definition add_sent (b : string) (w : world) : world :=
  mkWorld (inbox w) (sent w ++ [b]) (closed w) (written w) (ticks w).
Definition set_closed (w : world) : world :=
  mkWorld (inbox w) (sent w) true (written w) (ticks w).
Definition add_written (path content : string) (w : world) : world :=
  mkWorld (inbox w) (sent w) (closed w) (written w ++ [(path, content)]) (ticks w).
Definition tick (w : world) : world :=
  mkWorld (inbox w) (sent w) (closed w) (written w) (S (ticks w)).

(** The exceptions the handlers let escape. *)
Inductive exn : Type :=
| SocketTimeout
| ValueError
| OSError.

(** A computation returns, raises, or never returns. *)
Inductive res (A : Type) : Type :=
| Ok (a : A) (w : world)
| Raised (e : exn) (w : world)
| Diverged (w : world).
Arguments Ok {A} a w.
Arguments Raised {A} e w.
Arguments Diverged {A} w.

Definition M (A : Type) : Type := world -> res A.

Definition ret {A : Type} (a : A) : M A := fun w => Ok a w.
Definition bind {A B : Type} (m : M A) (f : A -> M B) : M B :=
  fun w =>
    match m w with
    | Ok a w' => f a w'
    | Raised e w' => Raised e w'
    | Diverged w' => Diverged w'
    end.
Definition raise {A : Type} (e : exn) : M A := fun w => Raised e w.

Notation "x <- m ;; k" := (bind m (fun x => k))
  (at level 61, m at next level, right associativity).
Notation "m ;;; k" := (bind m (fun _ => k))
  (at level 61, right associativity).

(** A call that returns a value or raises. *)
Inductive outcome (A : Type) : Type :=
| Returns (a : A)
| Raises (e : exn).
Arguments Returns {A} a.
Arguments Raises {A} e.

Section Handlers.
Variable E : env.

Definition http_date_now : M string :=
  fun w => Ok (date_at E (ticks w)) (tick w).
Definition time_time : M Z :=
  fun w => Ok (time_at E (ticks w)) (tick w).
Definition utc_timestamp : M string :=
  fun w => Ok (utcstamp_at E (ticks w)) (tick w).
Definition random_id : M string :=
  fun w => Ok (random_id_at E (ticks w)) (tick w).

Definition sendall (b : string) : M unit := fun w => Ok tt (add_sent b w).
Definition sock_close : M unit := fun w => Ok tt (set_closed w).
Definition write_file (path content : string) : M unit :=
  fun w => Ok tt (add_written path content w).

(** [os.path.realpath(p)]: what the file system says, and [ValueError]
    (embedded null byte) when a NUL byte occurs in [p]. *)
Definition os_realpath (p : string) : outcome string :=
  if has_nul p then Raises ValueError else Returns (realpath E p).

(** [safe_path(base, path)] *)
Definition safe_path (base path : string) : outcome (option string) :=
  match os_realpath (path_join base (lstrip_char "/" path)) with
  | Raises e => Raises e
  | Returns target =>
      match os_realpath base with
      | Raises e => Raises e
      | Returns root =>
          if negb (startswith target root) then Returns None
          else Returns (Some target)
      end
  end.

(** The loop of [recv_headers], on the data read so far and the [recv]
    outcomes to come: it returns the data and the outcomes left. *)
Fixpoint recv_headers_loop (data : string) (inb : list recv_event)
  : string * list recv_event :=
  if negb (contains CRLF2 data) && (len data <? MAX_HEADER_SIZE)
  then match inb with
       | [] => (data, [])
       | TimedOut :: rest => (data, rest)
       | Chunk chunk :: rest =>
           if (chunk =? "")%string then (data, rest)
           else recv_headers_loop (data ++ chunk) rest
       end
  else (data, inb).

Definition recv_headers : M string :=
  fun w =>
    let (data, rest) := recv_headers_loop "" (inbox w) in
    Ok data (set_inbox rest w).

Definition add_header_line (headers : dict) (line : string) : dict :=
  if contains ": " line
  then match split1 ": " line with
       | Some (k, v) => dict_set (strip k) (strip v) headers
       | None => headers
       end
  else headers.

(** [parse_headers(data)].  The [except] branch is not reachable: decoding
    iso-8859-1 accepts every byte and [split] always returns a first item. *)
Definition parse_headers (data : string) : string * dict :=
  let lines := split CRLF data in
  let request_line := hd "" lines in
  (request_line, fold_left add_header_line (tl lines) []).

(** The error responses: [Date] and [Connection: close], a short body. *)
Definition send_error (status : Z) (reason body : string) : M unit :=
  date <- http_date_now ;;
  sendall (build_response status reason
             [("Date", date); ("Connection", "close")] body).

Definition ok_headers (date content_type : string) (extra : dict)
    (content_length : Z) (keep_alive : bool) : dict :=
  ([("Date", date); ("Content-Type", content_type)] ++ extra ++
   [("Content-Length", str content_length);
    ("Connection", if keep_alive then "keep-alive" else "close");
    ("Keep-Alive", if keep_alive then "timeout=30, max=100" else "")])%list.

(** The successive results of [f.read(size)] on a file holding [s]: [room]
    is what the current chunk may still take, [cur] the chunk, reversed. *)
Fixpoint chunks_go (size : nat) (s : string) (room : nat) (cur : string)
  : list string :=
  match s with
  | EmptyString => match cur with EmptyString => [] | _ => [rev cur] end
  | String c s' =>
      match room with
      | O => rev cur :: chunks_go size s' (size - 1) (String c "")
      | S r => chunks_go size s' r (String c cur)
      end
  end.
Definition file_chunks (size : nat) (s : string) : list string :=
  chunks_go size s size "".

Fixpoint send_chunks (chunks : list string) : M unit :=
  match chunks with
  | [] => ret tt
  | chunk :: rest => sendall chunk ;;; send_chunks rest
  end.

Definition allowed_ext (ext : string) : bool :=
  existsb (String.eqb ext) [".html"; ".png"; ".jpg"; ".jpeg"; ".txt"].

(** [if path == "/": path = "/index.html"] *)
Definition served_path (path : string) : string :=
  if (path =? "/")%string then "/index.html" else path.

(** [handle_get_head(sock, path, keep_alive, method)] *)
Definition handle_get_head (path : string) (keep_alive : bool)
    (method : string) : M unit :=
  let path := served_path path in
  match safe_path RESOURCES_DIR path with
  | Raises e => raise e
  | Returns None => send_error 403 "Forbidden" "403 Forbidden"
  | Returns (Some filepath) =>
      if (filepath =? "")%string || isdir E filepath
      then send_error 403 "Forbidden" "403 Forbidden"
      else
        let ext := lower (snd (splitext filepath)) in
        if negb (allowed_ext ext)
        then send_error 415 "Unsupported Media Type" "415 Unsupported Media Type"
        else
          match file_content E filepath with
          | Missing => send_error 404 "Not Found" "404 Not Found"
          | Unreadable size =>
              if (ext =? ".html")%string
              then raise OSError
              else
                date <- http_date_now ;;
                sendall (build_response 200 "OK"
                           (ok_headers date "application/octet-stream"
                              [("Content-Disposition",
                                "attachment; filename=" ++ DQ
                                ++ basename filepath ++ DQ)]
                              size keep_alive)
                           "") ;;;
                raise OSError
          | Holds body =>
              if (ext =? ".html")%string
              then
                date <- http_date_now ;;
                sendall (build_response 200 "OK"
                           (ok_headers date "text/html; charset=utf-8" []
                              (len body) keep_alive)
                           (if (method =? "GET")%string then body else ""))
              else
                date <- http_date_now ;;
                sendall (build_response 200 "OK"
                           (ok_headers date "application/octet-stream"
                              [("Content-Disposition",
                                "attachment; filename=" ++ DQ
                                ++ basename filepath ++ DQ)]
                              (len body) keep_alive)
                           "") ;;;
                send_chunks (file_chunks FILE_CHUNK body)
          end
  end.

(** The loop of [handle_post] that completes the body. *)
Inductive body_read : Type :=
| BodyRead (data : string) (rest : list recv_event)
| BodyTimedOut (rest : list recv_event)
| BodySpins.

(** [while len(data) < content_length: data += sock.recv(4096)].  Once the
    peer has closed, [recv] returns the empty string at once, for ever: the
    loop spins. *)
Fixpoint read_body_loop (content_length : Z) (data : string)
    (inb : list recv_event) : body_read :=
  if len data <? content_length
  then match inb with
       | [] => BodySpins
       | TimedOut :: rest => BodyTimedOut rest
       | Chunk chunk :: rest => read_body_loop content_length (data ++ chunk) rest
       end
  else BodyRead data inb.

Definition read_body (content_length : Z) (body : string) : M string :=
  fun w =>
    match read_body_loop content_length body (inbox w) with
    | BodyRead data rest => Ok data (set_inbox rest w)
    | BodyTimedOut rest => Raised SocketTimeout (set_inbox rest w)
    | BodySpins => Diverged (set_inbox [] w)
    end.

(** [json.loads(data.decode("utf-8"))], [None] when either step raises. *)
Definition parse_json (data : string) : option json :=
  match utf8_decode E data with
  | Some text => json_loads E text
  | None => None
  end.

(** [json.dumps] of the upload report: three string members, none of which
    needs escaping (the file name is made of digits, lower-case letters,
    underscores and a dot). *)
Definition upload_report (filename : string) : string :=
  "{" ++ DQ ++ "status" ++ DQ ++ ": " ++ DQ ++ "success" ++ DQ ++ ", "
  ++ DQ ++ "message" ++ DQ ++ ": " ++ DQ ++ "File created successfully" ++ DQ ++ ", "
  ++ DQ ++ "filepath" ++ DQ ++ ": " ++ DQ ++ "/uploads/" ++ filename ++ DQ ++ "}".

(** The second half of [handle_post], from [json.loads] on, given the
    [data] the loop has accumulated. *)
Definition store_upload (data : string) (keep_alive : bool) : M unit :=
  match parse_json data with
  | None => send_error 400 "Bad Request" "400 Bad Request: Invalid JSON"
  | Some json_data =>
      timestamp <- utc_timestamp ;;
      suffix <- random_id ;;
      let filename := "upload_" ++ timestamp ++ "_" ++ suffix ++ ".json" in
      let filepath := path_join UPLOADS_DIR filename in
      write_file filepath (json_dump E json_data) ;;;
      let resp_body := encode (upload_report filename) in
      date <- http_date_now ;;
      sendall (build_response 201 "Created"
                 (ok_headers date "application/json" [] (len resp_body)
                    keep_alive)
                 resp_body)
  end.

(** [handle_post(sock, path, headers, body, keep_alive)] *)
Definition handle_post (path : string) (headers : dict) (body : string)
    (keep_alive : bool) : M unit :=
  if negb (path =? "/upload")%string
     || negb (contains "application/json" (dict_get "Content-Type" headers ""))
  then send_error 415 "Unsupported Media Type" "415 Unsupported Media Type"
  else
    match int (dict_get "Content-Length" headers "0") with
    | None => raise ValueError
    | Some content_length =>
        data <- read_body content_length body ;;
        store_upload data keep_alive
    end.

(** [version == "HTTP/1.1" and headers.get("Connection", "").lower() != "close"] *)
Definition negotiated_keep_alive (version : string) (headers : dict) : bool :=
  (version =? "HTTP/1.1")%string
  && negb (lower (dict_get "Connection" headers "") =? "close")%string.

(** [".." in path or path.startswith("/../") or path.startswith("//")] *)
Definition traversal (path : string) : bool :=
  contains ".." path || startswith path "/../" || startswith path "//".

Definition host_allowed (host : string) : bool :=
  existsb (String.eqb host)
    [HOST ++ ":" ++ str PORT; "localhost:" ++ str PORT].

(** [raw.split(b"\r\n\r\n", 1)[1] if b"\r\n\r\n" in raw else b""] *)
Definition buffered_body (raw : string) : string :=
  if contains CRLF2 raw
  then match split1 CRLF2 raw with Some (_, rest) => rest | None => "" end
  else "".

(** How one pass through the body of the [while] loop ends, with the value
    of [requests_handled] at that point. *)
Inductive loop_exit : Type :=
| Break (requests_handled : nat)
| Continue (requests_handled : nat).

(** The body of the loop of [handle_connection]. *)
Definition serve_request (requests_handled : nat) : M loop_exit :=
  raw <- recv_headers ;;
  if (raw =? "")%string then ret (Break requests_handled)
  else
    last_activity <- time_time ;;
    let (request_line, headers) := parse_headers raw in
    if (request_line =? "")%string || negb (dict_mem "Host" headers)
    then send_error 400 "Bad Request" "400 Bad Request" ;;;
         ret (Break requests_handled)
    else if negb (host_allowed (dict_get "Host" headers ""))
    then send_error 403 "Forbidden" "403 Forbidden" ;;;
         ret (Break requests_handled)
    else
      let parts := split_ws request_line in
      if (length parts <? 3)%nat
      then send_error 400 "Bad Request" "400 Bad Request" ;;;
           ret (Break requests_handled)
      else
        match parts with
        | [method; path; version] =>
            let keep_alive := negotiated_keep_alive version headers in
            if traversal path
            then send_error 403 "Forbidden" "403 Forbidden" ;;;
                 ret (Break requests_handled)
            else
              let after_handler : M loop_exit :=
                let requests_handled := S requests_handled in
                if negb keep_alive then ret (Break requests_handled)
                else
                  now <- time_time ;;
                  if CONN_TIMEOUT <? now - last_activity
                  then ret (Break requests_handled)
                  else ret (Continue requests_handled)
              in
              if (method =? "GET")%string || (method =? "HEAD")%string
              then handle_get_head path keep_alive method ;;; after_handler
              else if (method =? "POST")%string
              then handle_post path headers (buffered_body raw) keep_alive ;;;
                   after_handler
              else send_error 405 "Method Not Allowed" "405 Method Not Allowed" ;;;
                   ret (Break requests_handled)
        | _ => raise ValueError   (* method, path, version = parts *)
        end.

(** [while requests_handled < MAX_REQUESTS_PER_CONN]: [budget] is
    [MAX_REQUESTS_PER_CONN - requests_handled], so the test of the loop is
    [budget <> 0].  The loop yields the final [requests_handled]. *)
Fixpoint connection_loop (budget requests_handled : nat) : M nat :=
  match budget with
  | O => ret requests_handled
  | S budget' =>
      step <- serve_request requests_handled ;;
      match step with
      | Break n => ret n
      | Continue n => connection_loop budget' n
      end
  end.

(** [handle_connection(sock, addr)]; the value is the final
    [requests_handled], which Python drops. *)
Definition handle_connection : M nat :=
  _ <- time_time ;;
  n <- connection_loop MAX_REQUESTS_PER_CONN 0 ;;
  sock_close ;;;
  ret n.

End Handlers.

(** What a client reads off a response: the status code after the
    protocol version, and whether a [Connection: close] header line is
    there. *)
Definition response_status (resp : string) : option Z :=
  if startswith resp "HTTP/1.1 " then int (slice 9 12 resp) else None.
Definition announces_close (resp : string) : bool :=
  contains (CRLF ++ "Connection: close" ++ CRLF) resp.

End Server.

(* ================================================================== *)
(** ** A small deployment to run the handlers on *)

Module Demo.
Import Py Http Server.

(** The server runs in [/srv]; [resources] holds three files, the
    [uploads] directory and a symbolic link [link] to [/etc].  The paths
    used below have no dot segment and no doubled slash, so [realpath] only
    makes them absolute and follows [link]. *)
Definition demo_realpath (p : string) : string :=
  if startswith p "resources/link"
  then "/etc" ++ slice_from 14 p
  else "/srv/" ++ p.

Definition demo_isdir (p : string) : bool :=
  existsb (String.eqb p) ["/srv/resources"; "/srv/resources/uploads"; "/etc"].

Definition demo_files : list (string * string) :=
  [("/srv/resources/index.html", "<h1>It works</h1>");
   ("/srv/resources/a.txt", "hello");
   ("/srv/resources/notes.md", "# notes");
   ("/etc/passwd", "root:x:0:0")].

(** Every file of the deployment can be read. *)
Definition demo_file_content (p : string) : file :=
  match dict_find p demo_files with
  | Some body => Holds body
  | None => Missing
  end.

Fixpoint is_ascii (s : string) : bool :=
  match s with
  | EmptyString => true
  | String c s' => (code c <? 128) && is_ascii s'
  end.

(** The codec on the few documents used below: on them it agrees with
    Python's ([{}GET] is rejected by [json.loads] as well: extra data). *)
Definition demo_json_loads (text : string) : option json :=
  if (text =? "{}")%string then Some (JObj [])
  else if (text =? "[]")%string then Some (JArr [])
  else if (text =? "null")%string then Some JNull
  else None.

Definition demo_json_dump (j : json) : string :=
  match j with
  | JObj [] => "{}"
  | JArr [] => "[]"
  | _ => "null"
  end.

Definition demo : env := {|
  realpath := demo_realpath;
  isdir := demo_isdir;
  file_content := demo_file_content;
  utf8_decode := fun b => if is_ascii b then Some b else None;
  json_loads := demo_json_loads;
  json_dump := demo_json_dump;
  time_at := fun k => 1000 + Z.of_nat k;
  date_at := fun _ => "Tue, 03 Nov 2026 12:00:00 GMT";
  utcstamp_at := fun _ => "20261103_120000";
  random_id_at := fun _ => "k3x9"
|}.


(** A connection on which the client's writes arrive as [chunks]. *)
Definition fresh (chunks : list string) : world :=
  mkWorld (map Chunk chunks) [] false [] 0.

Definition request (line : string) (headers : list string) (body : string)
  : string :=
  line ++ CRLF ++ String.concat "" (map (fun h => h ++ CRLF) headers)
  ++ CRLF ++ body.

Definition good_host : string := "Host: 127.0.0.1:8080".

End Demo.

(* ================================================================== *)
(** ** What the statements below speak of *)

Module Statements.
Import Py Http Server.

(** The world after [sendall] was called on each of [chunks] in turn. *)
Definition add_all_sent (chunks : list string) (w : world) : world :=
  mkWorld (inbox w) (sent w ++ chunks) (closed w) (written w) (ticks w).

(** The headers of the 200 response for a streamed file. *)
Definition attachment_headers (E : env) (w : world) (filepath body : string)
    (keep_alive : bool) : dict :=
  ok_headers (date_at E (ticks w)) "application/octet-stream"
    [("Content-Disposition",
      "attachment; filename=" ++ DQ ++ basename filepath ++ DQ)]
    (len body) keep_alive.









End Statements.

(* ================================================================== *)
(** ** The worker pool and the accept loop *)

Module Pool.
Import Py Http Server.

Definition QUEUE_MAXSIZE : nat := 200.
Definition RETRY_AFTER : Z := 5.

Section Queue.
Variable item : Type.

(** [queue.Queue(maxsize=QUEUE_MAXSIZE)]: the items waiting, oldest first.
    Its operations are atomic (the queue locks itself), so a pool is
    described by the order in which they take effect. *)
Definition queue : Type := list item.

(** [WorkerPool.submit]: [put_nowait], [True], or [False] on [queue.Full]. *)
Definition submit (q : queue) (x : item) : bool * queue :=
  if (length q <? QUEUE_MAXSIZE)%nat then (true, (q ++ [x])%list) else (false, q).

(** [queue.get()]: the oldest item; on an empty queue the caller waits. *)
Definition get (q : queue) : option (item * queue) :=
  match q with
  | [] => None
  | x :: rest => Some (x, rest)
  end.

(** The calls made on the queue of a pool: [submit] by the accept loop,
    [get] by a worker. *)
Inductive pool_op : Type :=
| Submit (x : item)
| Get.

(** The queue, with the record of what happened to every item: [admitted]
    lists the items [submit] took, [refused] those it turned down, [taken]
    those the workers got, each in the order of the calls. *)
Record pool : Type := mkPool {
  waiting : queue;
  admitted : list item;
  refused : list item;
  taken : list item
}.

Definition empty_pool : pool := mkPool [] [] [] [].

Definition pool_step (p : pool) (op : pool_op) : pool :=
  match op with
  | Submit x =>
      let (ok, q) := submit (waiting p) x in
      if ok then mkPool q (admitted p ++ [x])%list (refused p) (taken p)
      else mkPool q (admitted p) (refused p ++ [x])%list (taken p)
  | Get =>
      match get (waiting p) with
      | Some (x, q) => mkPool q (admitted p) (refused p) (taken p ++ [x])%list
      | None => p
      end
  end.

Definition pool_run (ops : list pool_op) : pool := fold_left pool_step ops empty_pool.

(** What every call keeps: the bound, and the order of service. *)
Definition pool_ok (p : pool) : Prop :=
  (length (waiting p) <= QUEUE_MAXSIZE)%nat
  /\ (taken p ++ waiting p)%list = admitted p.

End Queue.
Arguments submit {item} q x.
Arguments get {item} q.
Arguments Submit {item} x.
Arguments Get {item}.
Arguments waiting {item} p.
Arguments admitted {item} p.
Arguments refused {item} p.
Arguments taken {item} p.
Arguments pool_step {item} p op.
Arguments pool_run {item} ops.
Arguments pool_ok {item} p.

Section Acceptor.
Variable E : env.

(** What the accept loop of [run_server] does to a socket the pool turned
    down. *)
Definition reject_overloaded : M unit :=
  date <- http_date_now E ;;
  sendall (build_response 503 "Service Unavailable"
             [("Date", date); ("Retry-After", str RETRY_AFTER);
              ("Connection", "close")]
             "503 Service Unavailable") ;;;
  sock_close.

(** One pass of the accept loop on the socket [accept] returned: the queue
    afterwards, and what was done to the socket. *)
Definition accept_one (q : queue world) (client_sock : world)
  : queue world * res unit :=
  let (submitted, q') := submit q client_sock in
  if submitted then (q', Ok tt client_sock)
  else (q', reject_overloaded client_sock).

(** [WorkerPool.worker] on the results of its successive [queue.get()]
    calls, each socket in the state the worker finds it in ([None] is the
    item that ends the worker): how [handle_connection] ended on each socket
    served.  An exception is caught and logged; a connection that never
    returns keeps the worker, and nothing after it is served. *)
Fixpoint worker (items : list (option world)) : list (res nat) :=
  match items with
  | [] => []
  | None :: _ => []
  | Some client_sock :: rest =>
      match handle_connection E client_sock with
      | Diverged w => [Diverged w]
      | r => r :: worker rest
      end
  end.

(** How [handle_connection] ends on a socket: [true] unless it never
    returns. *)
Definition returns_or_raises (client_sock : world) : bool :=
  match handle_connection E client_sock with
  | Diverged _ => false
  | _ => true
  end.

End Acceptor.

End Pool.

(* ================================================================== *)
(** ** More of what the statements speak of *)

Module Conditions.
Import Py Http Server.

(** The first [recv] brings nothing: the peer has closed, the read timed
    out, or (which a socket reports the same way) it returned no byte. *)
Definition nothing_arrives (inb : list recv_event) : bool :=
  match inb with
  | [] => true
  | TimedOut :: _ => true
  | Chunk chunk :: _ => (chunk =? "")%string
  end.

(** Every [recv] to come returns at most [size] bytes. *)
Definition chunks_within (size : Z) (inb : list recv_event) : Prop :=
  Forall (fun ev => match ev with Chunk chunk => len chunk <= size | TimedOut => True end) inb.

(** What follows the handler in the loop of [handle_connection]: the
    counter, the keep-alive test and the idle test. *)
Definition after_handler (E : env) (requests_handled : nat) (keep_alive : bool)
    (last_activity : Z) : M loop_exit :=
  if negb keep_alive then ret (Break (S requests_handled))
  else
    now <- time_time E ;;
    if CONN_TIMEOUT <? now - last_activity
    then ret (Break (S requests_handled))
    else ret (Continue (S requests_handled)).

(** The status [str] writes in three characters that [encode] leaves as
    they are and [int] reads back. *)
Definition status_round_trips (status : Z) : bool :=
  match str status with
  | String a (String b (String c EmptyString)) =>
      (code a <? 128) && (code b <? 128) && (code c <? 128)
      && match int (String a (String b (String c EmptyString))) with
         | Some n => n =? status
         | None => false
         end
  | _ => false
  end.

(** The response to an error, as [send_error] frames it. *)
Definition error_response (status : Z) (reason date body : string) : string :=
  build_response status reason [("Date", date); ("Connection", "close")] body.

End Conditions.

(* ================================================================== *)
(** ** The string functions on sample inputs *)

Module PySamples.

Example split_crlf :
  Py.split Py.CRLF ("GET / HTTP/1.1" ++ Py.CRLF ++ "Host: h" ++ Py.CRLF ++ Py.CRLF)
  = ["GET / HTTP/1.1"; "Host: h"; ""; ""].
Proof. reflexivity. Qed.

Example split_ws_line : Py.split_ws "  GET   /a.txt HTTP/1.1 " = ["GET"; "/a.txt"; "HTTP/1.1"].
Proof. reflexivity. Qed.

Example split1_header : Py.split1 ": " "Host: a: b" = Some ("Host", "a: b").
Proof. reflexivity. Qed.

Example splitext_samples :
  map Py.splitext ["resources/a.tar.GZ"; "resources/.bashrc"; "res.d/file"; "a/..b.txt"]
  = [("resources/a.tar", ".GZ"); ("resources/.bashrc", ""); ("res.d/file", ""); ("a/..b", ".txt")].
Proof. reflexivity. Qed.

Example int_samples :
  map Py.int ["42"; " -7 "; "1_000"; "1__0"; ""; "+"; "12a"; "_1"]
  = [Some 42; Some (-7); Some 1000; None; None; None; None; None].
Proof. reflexivity. Qed.

Example str_samples : map Py.str [0; 200; 8192] = ["0"; "200"; "8192"].
Proof. reflexivity. Qed.

End PySamples.

(* ================================================================== *)
(** ** Running the monad *)

Module Run.
Import Py Http Server Statements.

Lemma append_assoc (a b c : string) : (a ++ b) ++ c = a ++ (b ++ c).
Proof. induction a; simpl; congruence. Qed.

Lemma append_empty_r (s : string) : s ++ "" = s.
Proof. induction s; simpl; congruence. Qed.

Lemma rev_acc_app (s acc : string) : rev_acc s acc = rev_acc s "" ++ acc.
Proof.
  revert acc; induction s as [|c s IH]; intros acc; simpl.
  - reflexivity.
  - rewrite (IH (String c acc)), (IH (String c "")).
    now rewrite append_assoc.
Qed.

Lemma rev_cons (c : ascii) (s : string) : rev (String c s) = rev s ++ String c "".
Proof. unfold rev; simpl. apply rev_acc_app. Qed.

Lemma concat_cons (x : string) (xs : list string) :
  String.concat "" (x :: xs) = x ++ String.concat "" xs.
Proof. destruct xs; simpl; [now rewrite append_empty_r | reflexivity]. Qed.

(** The chunks read from a file, put end to end, are the file. *)
Lemma chunks_go_concat (size : nat) (s : string) :
  forall room cur,
    String.concat "" (chunks_go size s room cur) = rev cur ++ s.
Proof.
  induction s as [|c s IH]; intros room cur.
  - simpl. rewrite append_empty_r. destruct cur; reflexivity.
  - destruct room as [|r].
    + change (chunks_go size (String c s) 0 cur)
        with (rev cur :: chunks_go size s (size - 1) (String c "")).
      rewrite concat_cons, IH. reflexivity.
    + change (chunks_go size (String c s) (S r) cur)
        with (chunks_go size s r (String c cur)).
      rewrite IH, rev_cons, append_assoc. reflexivity.
Qed.

Lemma file_chunks_concat (size : nat) (s : string) :
  String.concat "" (file_chunks size s) = s.
Proof. unfold file_chunks. now rewrite chunks_go_concat. Qed.

Lemma send_chunks_run (chunks : list string) :
  forall w, send_chunks chunks w = Ok tt (add_all_sent chunks w).
Proof.
  induction chunks as [|c cs IH]; intros w.
  - unfold add_all_sent; simpl. rewrite app_nil_r. now destruct w.
  - simpl. unfold bind, sendall. rewrite IH. unfold add_all_sent, add_sent; simpl.
    now rewrite <- app_assoc.
Qed.

Lemma send_error_run (E : env) (status : Z) (reason body : string) (w : world) :
  send_error E status reason body w
  = Ok tt (add_sent (build_response status reason
                       [("Date", date_at E (ticks w)); ("Connection", "close")] body)
             (tick w)).
Proof. reflexivity. Qed.

Lemma dict_set_keys (k v : string) (d : dict) (k' : string) :
  In k' (map fst (dict_set k v d)) <-> k' = k \/ In k' (map fst d).
Proof.
  induction d as [|[k0 v0] d IH]; cbn.
  - intuition congruence.
  - destruct (String.eqb_spec k0 k) as [->|Hne]; cbn; [intuition congruence|].
    rewrite IH. intuition congruence.
Qed.

Lemma dict_set_nodup (k v : string) (d : dict) :
  NoDup (map fst d) -> NoDup (map fst (dict_set k v d)).
Proof.
  induction d as [|[k0 v0] d IH]; cbn; intros H.
  - constructor; [tauto | constructor].
  - inversion H as [|? ? Hnotin Hd]; subst.
    destruct (String.eqb_spec k0 k) as [->|Hne]; cbn.
    + now constructor.
    + constructor; [|now apply IH].
      rewrite dict_set_keys. intros [->|Hin]; [now elim Hne | now elim Hnotin].
Qed.

Lemma add_header_line_nodup (headers : dict) (line : string) :
  NoDup (map fst headers) -> NoDup (map fst (add_header_line headers line)).
Proof.
  intros H. unfold add_header_line.
  destruct (contains ": " line); [|exact H].
  destruct (split1 ": " line) as [[k v]|]; [|exact H].
  now apply dict_set_nodup.
Qed.








End Run.

(* ================================================================== *)
(** ** The file-serving action *)

Module FileServing.
Import Py Http Server Statements Run.

(** What [handle_get_head] does once the path resolves to a file that is
    present and whose extension is one of the streamed ones: the method
    plays no part. *)
Lemma streamed_file_run (E : env) (path method : string) (keep_alive : bool)
    (w : world) (filepath body : string) :
  safe_path E RESOURCES_DIR (served_path path) = Returns (Some filepath) ->
  filepath <> "" ->
  isdir E filepath = false ->
  In (lower (snd (splitext filepath))) [".png"; ".jpg"; ".jpeg"; ".txt"] ->
  file_content E filepath = Holds body ->
  handle_get_head E path keep_alive method w
  = Ok tt (add_all_sent (file_chunks FILE_CHUNK body)
             (add_sent (build_response 200 "OK"
                          (attachment_headers E w filepath body keep_alive) "")
                (tick w))).
Proof.
  intros Hsafe Hne Hdir Hext Hfile.
  unfold handle_get_head. rewrite Hsafe.
  apply String.eqb_neq in Hne. rewrite Hne, Hdir.
  cbn [orb].
  assert (Hallowed : allowed_ext (lower (snd (splitext filepath))) = true
                     /\ (lower (snd (splitext filepath)) =? ".html")%string = false).
  { destruct Hext as [H|[H|[H|[H|[]]]]]; rewrite <- H; split; reflexivity. }
  destruct Hallowed as [Ha Hh]. rewrite Ha, Hh, Hfile. cbn [negb].
  unfold bind, http_date_now, sendall. rewrite send_chunks_run. reflexivity.
Qed.

(** C1, at the code: a HEAD request for a file that is present and has
    one of the extensions .png, .jpg, .jpeg, .txt gets the 200 response
    headers (Content-Type, Content-Disposition, Content-Length equal to
    the size of the file) and then, exactly as a GET request does, every
    chunk of the file: the chunks sent, put end to end, are the whole
    file.  The method is not looked at on this path. *)
Theorem head_of_streamed_file_sends_body (E : env) (path : string)
    (keep_alive : bool) (w : world) (filepath body : string) :
  safe_path E RESOURCES_DIR (served_path path) = Returns (Some filepath) ->
  filepath <> "" ->
  isdir E filepath = false ->
  In (lower (snd (splitext filepath))) [".png"; ".jpg"; ".jpeg"; ".txt"] ->
  file_content E filepath = Holds body ->
  exists w',
    handle_get_head E path keep_alive "HEAD" w = Ok tt w'
    /\ sent w'
       = (sent w
          ++ build_response 200 "OK"
               (attachment_headers E w filepath body keep_alive) ""
          :: file_chunks FILE_CHUNK body)%list
    /\ String.concat "" (file_chunks FILE_CHUNK body) = body
    /\ handle_get_head E path keep_alive "GET" w = Ok tt w'.
Proof.
  intros Hsafe Hne Hdir Hext Hfile.
  eexists. split; [|split; [|split]].
  - apply (streamed_file_run E path "HEAD" keep_alive w filepath body); assumption.
  - cbn [sent add_all_sent add_sent tick]. now rewrite <- app_assoc.
  - apply file_chunks_concat.
  - apply (streamed_file_run E path "GET" keep_alive w filepath body); assumption.
Qed.

Lemma head_of_streamed_file_sends_body_witness :
  exists w',
    handle_get_head Demo.demo "/a.txt" true "HEAD" (Demo.fresh []) = Ok tt w'
    /\ sent w'
       = [build_response 200 "OK"
            (attachment_headers Demo.demo (Demo.fresh []) "/srv/resources/a.txt"
               "hello" true) "";
          "hello"].
Proof.
  destruct (head_of_streamed_file_sends_body Demo.demo "/a.txt" true
              (Demo.fresh []) "/srv/resources/a.txt" "hello")
    as [w' [Hrun [Hsent _]]].
  - reflexivity.
  - discriminate.
  - reflexivity.
  - simpl. tauto.
  - reflexivity.
  - exists w'. split; [exact Hrun | exact Hsent].
Defined.

(** C5, as the code has it: when the path of a GET or HEAD request
    resolves inside the serving root to something that is not a directory
    and whose extension, lower-cased, is none of .html, .png, .jpg, .jpeg,
    .txt, the action sends one response, 415 with Connection: close.
    Nothing is assumed about the file: the answer is 415, and not 404,
    whether or not it exists. *)
Theorem unsupported_extension_is_415 (E : env) (path method : string)
    (keep_alive : bool) (w : world) (filepath : string) :
  safe_path E RESOURCES_DIR (served_path path) = Returns (Some filepath) ->
  filepath <> "" ->
  isdir E filepath = false ->
  allowed_ext (lower (snd (splitext filepath))) = false ->
  exists w' resp,
    handle_get_head E path keep_alive method w = Ok tt w'
    /\ sent w' = (sent w ++ [resp])%list
    /\ resp = build_response 415 "Unsupported Media Type"
                [("Date", date_at E (ticks w)); ("Connection", "close")]
                "415 Unsupported Media Type"
    /\ response_status resp = Some 415
    /\ inbox w' = inbox w /\ written w' = written w.
Proof.
  intros Hsafe Hne Hdir Hext.
  do 2 eexists. split; [|split; [|split; [reflexivity|]]].
  - unfold handle_get_head. rewrite Hsafe.
    apply String.eqb_neq in Hne. rewrite Hne, Hdir, Hext.
    cbn [orb negb]. apply send_error_run.
  - reflexivity.
  - repeat split.
Qed.

Lemma unsupported_extension_is_415_witness :
  file_content Demo.demo "/srv/resources/notes.md" = Holds "# notes"
  /\ exists w' resp,
       handle_get_head Demo.demo "/notes.md" true "GET" (Demo.fresh []) = Ok tt w'
       /\ sent w' = [resp] /\ response_status resp = Some 415.
Proof.
  split; [reflexivity|].
  destruct (unsupported_extension_is_415 Demo.demo "/notes.md" "GET" true
              (Demo.fresh []) "/srv/resources/notes.md")
    as [w' [resp [Hrun [Hsent [_ [Hstatus _]]]]]].
  - reflexivity.
  - discriminate.
  - reflexivity.
  - reflexivity.
  - exists w', resp. repeat split; assumption.
Defined.

(** C5 as stated fails on a directory: [/uploads] resolves to the uploads
    directory, whose extension (none) is outside the allow-list, and the
    answer is 403, not 415. *)
Lemma directory_outside_allow_list_is_403 :
  safe_path Demo.demo RESOURCES_DIR (served_path "/uploads")
  = Returns (Some "/srv/resources/uploads")
  /\ allowed_ext (lower (snd (splitext "/srv/resources/uploads"))) = false
  /\ exists w',
       handle_get_head Demo.demo "/uploads" false "GET" (Demo.fresh []) = Ok tt w'
       /\ map response_status (sent w') = [Some 403].
Proof.
  split; [reflexivity|]. split; [reflexivity|].
  eexists. split; reflexivity.
Qed.

(** C10: a GET or HEAD request for [/] is rewritten to [/index.html]
    before the path is resolved and before the extension and the file are
    looked at, so the action does for [/] exactly what it does for
    [/index.html], whatever the file system holds; neither path is stopped
    by the traversal check that precedes the action. *)
Theorem root_is_served_as_index (E : env) (keep_alive : bool)
    (method : string) (w : world) :
  served_path "/" = "/index.html"
  /\ handle_get_head E "/" keep_alive method w
     = handle_get_head E "/index.html" keep_alive method w
  /\ traversal "/" = false /\ traversal "/index.html" = false.
Proof. repeat split. Qed.





(** C8 as stated fails on a request that writes the header name in lower
    case: [connection: close] on an HTTP/1.1 request leaves the flag true.
    The response announces keep-alive and the next request on the
    connection is read and served. *)
Lemma lower_case_connection_name_keeps_alive :
  let raw :=
    Demo.request "GET /a.txt HTTP/1.1" [Demo.good_host; "connection: close"] "" in
  snd (parse_headers raw)
  = [("Host", "127.0.0.1:8080"); ("connection", "close")]
  /\ negotiated_keep_alive "HTTP/1.1" (snd (parse_headers raw)) = true
  /\ exists w' head,
       handle_connection Demo.demo (Demo.fresh [raw; raw]) = Ok 2%nat w'
       /\ sent w' = [head; "hello"; head; "hello"]
       /\ response_status head = Some 200
       /\ announces_close head = false
       /\ contains (CRLF ++ "Connection: keep-alive" ++ CRLF) head = true.
Proof.
  cbv zeta. split; [vm_compute; reflexivity|]. split; [vm_compute; reflexivity|].
  do 2 eexists.
  split; [vm_compute; reflexivity|]. split; [vm_compute; reflexivity|].
  split; [vm_compute; reflexivity|]. split; vm_compute; reflexivity.
Qed.

End FileServing.

(* ================================================================== *)
(** ** The upload action *)

Module Upload.
Import Py Http Server Statements Run.

Lemma read_body_loop_eq (n : Z) (data : string) (inb : list recv_event) :
  read_body_loop n data inb
  = if len data <? n
    then match inb with
         | [] => BodySpins
         | TimedOut :: rest => BodyTimedOut rest
         | Chunk chunk :: rest => read_body_loop n (data ++ chunk) rest
         end
    else BodyRead data inb.
Proof. destruct inb; reflexivity. Qed.

(** The loop stops at the first point where the accumulated data has the
    declared length or more: after [k] further chunks, and no fewer. *)
Lemma read_body_loop_stops (n : Z) (rest : list recv_event) :
  forall (chunks : list string) (body : string),
    n <= len (body ++ String.concat "" chunks) ->
    exists k : nat,
      (k <= length chunks)%nat
      /\ n <= len (body ++ String.concat "" (firstn k chunks))
      /\ (forall j : nat, (j < k)%nat ->
            len (body ++ String.concat "" (firstn j chunks)) < n)
      /\ read_body_loop n body (map Chunk chunks ++ rest)%list
         = BodyRead (body ++ String.concat "" (firstn k chunks))
                    (map Chunk (skipn k chunks) ++ rest)%list.
Proof.
  induction chunks as [|c cs IH]; intros body Hlen.
  - exists 0%nat. simpl in *. rewrite append_empty_r in *.
    repeat split; try lia.
    rewrite read_body_loop_eq.
    destruct (len body <? n) eqn:Hlt; [apply Z.ltb_lt in Hlt; lia | reflexivity].
  - destruct (len body <? n) eqn:Hlt.
    + rewrite concat_cons, <- append_assoc in Hlen.
      destruct (IH (body ++ c) Hlen) as [k [Hk [Hge [Hmin Hrun]]]].
      exists (S k). split; [simpl; lia|].
      split; [|split].
      * rewrite firstn_cons, concat_cons, <- append_assoc. exact Hge.
      * intros [|j] Hj.
        -- simpl. rewrite append_empty_r. now apply Z.ltb_lt.
        -- rewrite firstn_cons, concat_cons, <- append_assoc.
           apply Hmin. lia.
      * rewrite read_body_loop_eq, Hlt. cbn [map app].
        rewrite Hrun, firstn_cons, concat_cons, <- append_assoc. reflexivity.
    + exists 0%nat. cbn [firstn skipn String.concat]. rewrite append_empty_r.
      apply Z.ltb_ge in Hlt.
      repeat split; try lia.
      rewrite read_body_loop_eq.
      destruct (len body <? n) eqn:Hlt'; [apply Z.ltb_lt in Hlt'; lia | reflexivity].
Qed.

(** C6, as the code has it: for a POST to [/upload] with a JSON content
    type that declares Content-Length [n], on a connection that delivers
    enough data, the action appends the results of further [recv] calls to
    the bytes already buffered until it holds [n] bytes or more; it stops at
    the first such point (it reads nothing when the buffer already holds
    [n] bytes) and hands all the bytes it holds, which may be more than
    [n], to the JSON parser. *)
Theorem upload_reads_at_least_content_length (E : env) (headers : dict)
    (body : string) (keep_alive : bool) (w : world) (n : Z)
    (chunks : list string) (rest : list recv_event) :
  contains "application/json" (dict_get "Content-Type" headers "") = true ->
  int (dict_get "Content-Length" headers "0") = Some n ->
  inbox w = (map Chunk chunks ++ rest)%list ->
  n <= len (body ++ String.concat "" chunks) ->
  exists (k : nat) (data : string),
    (k <= length chunks)%nat
    /\ data = body ++ String.concat "" (firstn k chunks)
    /\ n <= len data
    /\ (forall j : nat, (j < k)%nat ->
          len (body ++ String.concat "" (firstn j chunks)) < n)
    /\ read_body n body w
       = Ok data (set_inbox (map Chunk (skipn k chunks) ++ rest)%list w)
    /\ handle_post E "/upload" headers body keep_alive w
       = store_upload E data keep_alive
           (set_inbox (map Chunk (skipn k chunks) ++ rest)%list w).
Proof.
  intros Htype Hint Hinbox Hlen.
  destruct (read_body_loop_stops n rest chunks body Hlen)
    as [k [Hk [Hge [Hmin Hrun]]]].
  exists k, (body ++ String.concat "" (firstn k chunks)).
  assert (Hread : read_body n body w
                  = Ok (body ++ String.concat "" (firstn k chunks))
                       (set_inbox (map Chunk (skipn k chunks) ++ rest)%list w)).
  { unfold read_body. rewrite Hinbox, Hrun. reflexivity. }
  split; [exact Hk|]. split; [reflexivity|]. split; [exact Hge|].
  split; [exact Hmin|]. split; [exact Hread|].
  unfold handle_post. rewrite Htype, Hint.
  change (negb ("/upload" =? "/upload")%string) with false. cbn [negb orb].
  unfold bind. rewrite Hread. reflexivity.
Qed.

Lemma upload_reads_at_least_content_length_witness :
  exists data w',
    read_body 2 "{" (Demo.fresh ["}"; "rest"]) = Ok data w'
    /\ data = "{}" /\ inbox w' = [Chunk "rest"]
    /\ handle_post Demo.demo "/upload"
         [("Content-Type", "application/json"); ("Content-Length", "2")]
         "{" false (Demo.fresh ["}"; "rest"])
       = store_upload Demo.demo data false w'.
Proof.
  destruct (upload_reads_at_least_content_length Demo.demo
              [("Content-Type", "application/json"); ("Content-Length", "2")]
              "{" false (Demo.fresh ["}"; "rest"]) 2 ["}"; "rest"] [])
    as [k [data [Hk [Hdata [Hge [Hmin [Hread Hpost]]]]]]].
  - reflexivity.
  - reflexivity.
  - reflexivity.
  - vm_compute. discriminate.
  - destruct k as [|[|k]].
    + exfalso. rewrite Hdata in Hge. vm_compute in Hge. now apply Hge.
    + exists data. eexists. split; [exact Hread|].
      split; [exact Hdata|]. split; [reflexivity | exact Hpost].
    + exfalso. specialize (Hmin 1%nat ltac:(lia)). vm_compute in Hmin. discriminate Hmin.
Defined.

(** C6 as stated fails when more than the declared length is at hand: a
    client sends, in one write, a POST with Content-Length 2 and its
    two-byte body, a valid JSON document, followed by its next request.
    The parser is handed all 42 bytes that follow the headers, not 2, and
    the upload is answered 400. *)
Lemma upload_parses_past_content_length :
  let headers := [("Content-Type", "application/json"); ("Content-Length", "2")] in
  let buffered := "{}" ++ Demo.request "GET / HTTP/1.1" [Demo.good_host] "" in
  let raw :=
    Demo.request "POST /upload HTTP/1.1"
      [Demo.good_host; "Content-Type: application/json"; "Content-Length: 2"]
      buffered in
  int (dict_get "Content-Length" headers "0") = Some 2
  /\ buffered_body raw = buffered
  /\ read_body 2 buffered (Demo.fresh []) = Ok buffered (Demo.fresh [])
  /\ len buffered = 42
  /\ parse_json Demo.demo "{}" = Some (JObj [])
  /\ parse_json Demo.demo buffered = None
  /\ (exists w',
        handle_post Demo.demo "/upload" headers buffered true (Demo.fresh [])
        = Ok tt w'
        /\ map response_status (sent w') = [Some 400]
        /\ written w' = [])
  /\ (exists w',
        handle_connection Demo.demo (Demo.fresh [raw]) = Ok 1%nat w'
        /\ map response_status (sent w') = [Some 400]
        /\ written w' = []).
Proof.
  cbv zeta. repeat split; try reflexivity.
  - eexists. repeat split; reflexivity.
  - eexists. repeat split; reflexivity.
Qed.

(** C7: when the bytes accumulated for a POST to [/upload] do not parse
    as JSON, the action sends one response, 400, and creates no file. *)
Theorem invalid_json_is_400_and_writes_nothing (E : env) (headers : dict)
    (body : string) (keep_alive : bool) (w : world) (n : Z) (data : string)
    (rest : list recv_event) :
  contains "application/json" (dict_get "Content-Type" headers "") = true ->
  int (dict_get "Content-Length" headers "0") = Some n ->
  read_body_loop n body (inbox w) = BodyRead data rest ->
  parse_json E data = None ->
  exists w' resp,
    handle_post E "/upload" headers body keep_alive w = Ok tt w'
    /\ sent w' = (sent w ++ [resp])%list
    /\ resp = build_response 400 "Bad Request"
                [("Date", date_at E (ticks w)); ("Connection", "close")]
                "400 Bad Request: Invalid JSON"
    /\ response_status resp = Some 400
    /\ written w' = written w.
Proof.
  intros Htype Hint Hread Hparse.
  do 2 eexists. split; [|split; [|split; [reflexivity|]]].
  - unfold handle_post. rewrite Htype, Hint.
    change (negb ("/upload" =? "/upload")%string) with false. cbn [negb orb].
    unfold bind, read_body. rewrite Hread.
    unfold store_upload. rewrite Hparse. apply send_error_run.
  - reflexivity.
  - split; reflexivity.
Qed.

Lemma invalid_json_is_400_and_writes_nothing_witness :
  exists w' resp,
    handle_post Demo.demo "/upload"
      [("Content-Type", "application/json"); ("Content-Length", "4")]
      "no" true (Demo.fresh ["pe"])
    = Ok tt w'
    /\ sent w' = [resp] /\ response_status resp = Some 400 /\ written w' = [].
Proof.
  destruct (invalid_json_is_400_and_writes_nothing Demo.demo
              [("Content-Type", "application/json"); ("Content-Length", "4")]
              "no" true (Demo.fresh ["pe"]) 4 "nope" [])
    as [w' [resp [Hrun [Hsent [_ [Hstatus Hwritten]]]]]].
  - reflexivity.
  - reflexivity.
  - reflexivity.
  - reflexivity.
  - exists w', resp. repeat split; assumption.
Defined.

End Upload.

(* ================================================================== *)
(** ** The connection loop *)

Module Connection.
Import Py Http Server Statements Run.

Lemma recv_headers_loop_eq (data : string) (inb : list recv_event) :
  recv_headers_loop data inb
  = if negb (contains CRLF2 data) && (len data <? MAX_HEADER_SIZE)
    then match inb with
         | [] => (data, [])
         | TimedOut :: rest => (data, rest)
         | Chunk chunk :: rest =>
             if (chunk =? "")%string then (data, rest)
             else recv_headers_loop (data ++ chunk) rest
         end
    else (data, inb).
Proof. destruct inb; reflexivity. Qed.

(** A request line with a token in it is not empty, and neither is the
    data it was parsed from. *)
Lemma tokens_give_request_line (raw : string) (token : string)
    (tokens : list string) :
  split_ws (fst (parse_headers raw)) = token :: tokens ->
  (raw =? "")%string = false /\ (fst (parse_headers raw) =? "")%string = false.
Proof.
  intros H. split.
  - destruct (String.eqb_spec raw ""); [subst; discriminate H | reflexivity].
  - destruct (String.eqb_spec (fst (parse_headers raw)) "") as [e|];
      [rewrite e in H; discriminate H | reflexivity].
Qed.


Lemma encode_app (a b : string) : encode (a ++ b) = encode a ++ encode b.
Proof.
  induction a as [|c a IH]; simpl; [reflexivity|].
  rewrite IH. now destruct (code c <? 128).
Qed.

Lemma contains_app_r (sub a b : string) :
  contains sub b = true -> contains sub (a ++ b) = true.
Proof.
  intros H. induction a as [|c a IH]; simpl; [exact H|].
  rewrite IH. apply Bool.orb_true_r.
Qed.

(** Every error response is framed with a [Connection: close] line. *)
Lemma error_response_announces_close (status : Z) (reason date body : string) :
  announces_close
    (build_response status reason [("Date", date); ("Connection", "close")] body)
  = true.
Proof.
  unfold announces_close, build_response, header_lines. cbn [fold_left fst snd].
  replace (("HTTP/1.1 " ++ str status ++ " " ++ reason ++ CRLF)
           ++ (("" ++ "Date" ++ ": " ++ date ++ CRLF)
               ++ "Connection" ++ ": " ++ "close" ++ CRLF) ++ CRLF)
    with (("HTTP/1.1 " ++ str status ++ " " ++ reason ++ CRLF ++ "Date: " ++ date)
          ++ (CRLF ++ "Connection: close" ++ CRLF ++ CRLF)).
  - rewrite encode_app, append_assoc. apply contains_app_r. reflexivity.
  - repeat (rewrite append_assoc; cbn [append]). reflexivity.
Qed.


Lemma handle_connection_first (E : env) (w : world) :
  handle_connection E w
  = match connection_loop E MAX_REQUESTS_PER_CONN 0 (tick w) with
    | Ok n w' => Ok n (set_closed w')
    | Raised e w' => Raised e w'
    | Diverged w' => Diverged w'
    end.
Proof.
  unfold handle_connection, bind, time_time, sock_close, ret.
  now destruct (connection_loop E MAX_REQUESTS_PER_CONN 0 (tick w)).
Qed.

Lemma connection_loop_S (E : env) (budget requests_handled : nat) (w : world) :
  connection_loop E (S budget) requests_handled w
  = match serve_request E requests_handled w with
    | Ok (Break n) w' => Ok n w'
    | Ok (Continue n) w' => connection_loop E budget n w'
    | Raised e w' => Raised e w'
    | Diverged w' => Diverged w'
    end.
Proof.
  cbn [connection_loop]. unfold bind, ret.
  destruct (serve_request E requests_handled w) as [[n|n] w'|e w'|w']; reflexivity.
Qed.

Lemma max_requests_S : MAX_REQUESTS_PER_CONN = S (pred MAX_REQUESTS_PER_CONN).
Proof. reflexivity. Qed.




(** One pass of the loop on a request with an accepted [Host] header and
    more than three tokens: the unpacking of [parts] raises. *)
Lemma serve_long_request_line (E : env) (requests_handled : nat) (w : world)
    (raw : string) (rest : list recv_event) (parts : list string) :
  recv_headers_loop "" (inbox w) = (raw, rest) ->
  dict_mem "Host" (snd (parse_headers raw)) = true ->
  host_allowed (dict_get "Host" (snd (parse_headers raw)) "") = true ->
  split_ws (fst (parse_headers raw)) = parts ->
  (3 < length parts)%nat ->
  serve_request E requests_handled w
  = Raised ValueError (tick (set_inbox rest w)).
Proof.
  intros Hrecv Hhost Hallowed Hparts Hlong.
  destruct parts as [|p1 [|p2 [|p3 [|p4 more]]]]; cbn [length] in Hlong; try lia.
  destruct (tokens_give_request_line raw _ _ Hparts) as [Hraw Hline].
  unfold serve_request, bind, recv_headers. rewrite Hrecv, Hraw.
  unfold time_time. destruct (parse_headers raw) as [request_line headers].
  cbn [fst snd] in *. rewrite Hline, Hhost, Hallowed, Hparts. reflexivity.
Qed.

(** C4, at the code: a request line of more than three tokens, on a
    request whose [Host] header is accepted, is not answered 400: the
    handler raises [ValueError] out of the loop, having sent nothing and
    without closing the socket. *)
Theorem long_request_line_raises (E : env) (w : world) (raw : string)
    (rest : list recv_event) (parts : list string) :
  recv_headers_loop "" (inbox w) = (raw, rest) ->
  dict_mem "Host" (snd (parse_headers raw)) = true ->
  host_allowed (dict_get "Host" (snd (parse_headers raw)) "") = true ->
  split_ws (fst (parse_headers raw)) = parts ->
  (3 < length parts)%nat ->
  exists w',
    handle_connection E w = Raised ValueError w'
    /\ sent w' = sent w /\ closed w' = closed w.
Proof.
  intros Hrecv Hhost Hallowed Hparts Hlong.
  eexists. split; [|split].
  - rewrite handle_connection_first, max_requests_S, connection_loop_S.
    rewrite (serve_long_request_line E 0 (tick w) raw rest parts); auto.
  - reflexivity.
  - reflexivity.
Qed.

Lemma long_request_line_raises_witness :
  exists w',
    handle_connection Demo.demo
      (Demo.fresh [Demo.request "GET / HTTP/1.1 extra" [Demo.good_host] ""])
    = Raised ValueError w'
    /\ sent w' = [] /\ closed w' = false.
Proof.
  apply (long_request_line_raises Demo.demo
           (Demo.fresh [Demo.request "GET / HTTP/1.1 extra" [Demo.good_host] ""])
           (Demo.request "GET / HTTP/1.1 extra" [Demo.good_host] "")
           [] ["GET"; "/"; "HTTP/1.1"; "extra"]).
  - reflexivity.
  - reflexivity.
  - reflexivity.
  - reflexivity.
  - simpl. lia.
Defined.

(** C2, at the code: the error responses of the two handlers carry
    Connection: close, and the loop goes on all the same.  A keep-alive GET
    for a missing file is answered 404, then the next request on the
    connection is read and served; likewise after the 415 of a POST to a
    path other than [/upload]. *)
Theorem handler_errors_keep_connection_open :
  let missing := Demo.request "GET /missing.txt HTTP/1.1" [Demo.good_host] "" in
  let elsewhere := Demo.request "POST /elsewhere HTTP/1.1" [Demo.good_host] "" in
  let last :=
    Demo.request "GET /a.txt HTTP/1.1" [Demo.good_host; "Connection: close"] "" in
  (exists w' r1 r2,
     handle_connection Demo.demo (Demo.fresh [missing; last]) = Ok 2%nat w'
     /\ sent w' = [r1; r2; "hello"]
     /\ response_status r1 = Some 404 /\ announces_close r1 = true
     /\ response_status r2 = Some 200)
  /\ (exists w' r1 r2,
        handle_connection Demo.demo (Demo.fresh [elsewhere; last]) = Ok 2%nat w'
        /\ sent w' = [r1; r2; "hello"]
        /\ response_status r1 = Some 415 /\ announces_close r1 = true
        /\ response_status r2 = Some 200).
Proof.
  cbv zeta. split; do 3 eexists; repeat split; reflexivity.
Qed.

(** *** The bound on the requests of one connection *)













End Connection.

(* ================================================================== *)
(** ** The exits of the connection loop *)

Module LoopExits.
Import Py Http Server Statements Conditions Run.

Lemma nothing_arrives_read (inb : list recv_event) :
  nothing_arrives inb = true ->
  exists rest, recv_headers_loop "" inb = ("", rest).
Proof.
  intros H. rewrite Connection.recv_headers_loop_eq.
  change (negb (contains CRLF2 "") && (len "" <? MAX_HEADER_SIZE)) with true.
  cbv iota.
  destruct inb as [|[chunk|] rest]; cbn in H.
  - now exists [].
  - rewrite H. now exists rest.
  - now exists rest.
Qed.

Lemma run_from_first_request (E : env) (w : world) (n : nat) (w1 : world) :
  serve_request E 0 (tick w) = Ok (Break n) w1 ->
  handle_connection E w = Ok n (set_closed w1).
Proof.
  intros H.
  rewrite Connection.handle_connection_first, Connection.max_requests_S,
    Connection.connection_loop_S, H.
  reflexivity.
Qed.

(** The loop, up to the point where it has a request with its three
    tokens and an accepted host. *)
Lemma serve_dispatch (E : env) (requests_handled : nat) (w : world)
    (raw : string) (rest : list recv_event) (method path version : string) :
  recv_headers_loop "" (inbox w) = (raw, rest) ->
  dict_mem "Host" (snd (parse_headers raw)) = true ->
  host_allowed (dict_get "Host" (snd (parse_headers raw)) "") = true ->
  split_ws (fst (parse_headers raw)) = [method; path; version] ->
  traversal path = false ->
  serve_request E requests_handled w
  = (let headers := snd (parse_headers raw) in
     let keep_alive := negotiated_keep_alive version headers in
     let after := after_handler E requests_handled keep_alive (time_at E (ticks w)) in
     if (method =? "GET")%string || (method =? "HEAD")%string
     then handle_get_head E path keep_alive method ;;; after
     else if (method =? "POST")%string
     then handle_post E path headers (buffered_body raw) keep_alive ;;; after
     else send_error E 405 "Method Not Allowed" "405 Method Not Allowed" ;;;
          ret (Break requests_handled))
      (tick (set_inbox rest w)).
Proof.
  intros Hrecv Hhost Hallowed Hparts Htrav.
  destruct (Connection.tokens_give_request_line raw _ _ Hparts) as [Hraw Hline].
  unfold serve_request. unfold bind at 1. unfold recv_headers. rewrite Hrecv, Hraw.
  unfold bind at 1. unfold time_time at 1.
  destruct (parse_headers raw) as [request_line headers].
  cbn [fst snd] in *. rewrite Hline, Hhost, Hallowed, Hparts.
  cbn [negb orb length Nat.ltb Nat.leb]. rewrite Htrav.
  cbn [ticks set_inbox]. reflexivity.
Qed.

(** X1: when the first read of a connection brings nothing (the peer
    closed, the read timed out), the handler sends nothing, serves no
    request and closes the socket. *)
Theorem silent_connection_is_closed (E : env) (w : world) :
  nothing_arrives (inbox w) = true ->
  exists w',
    handle_connection E w = Ok 0%nat w'
    /\ sent w' = sent w /\ closed w' = true /\ written w' = written w.
Proof.
  intros H. destruct (nothing_arrives_read (inbox w) H) as [rest Hrecv].
  eexists. split.
  - apply run_from_first_request.
    unfold serve_request, bind, recv_headers. cbn [inbox tick].
    rewrite Hrecv. reflexivity.
  - repeat split.
Qed.

Lemma silent_connection_is_closed_witness :
  exists w',
    handle_connection Demo.demo (mkWorld [TimedOut] [] false [] 0) = Ok 0%nat w'
    /\ sent w' = [] /\ closed w' = true /\ written w' = [].
Proof.
  apply (silent_connection_is_closed Demo.demo (mkWorld [TimedOut] [] false [] 0)).
  reflexivity.
Defined.

(** X2: a request whose headers hold no [Host] entry is answered 400
    with Connection: close, whatever its request line, and the connection
    is closed with nothing more read. *)
Theorem missing_host_is_400_and_close (E : env) (w : world) (raw : string)
    (rest : list recv_event) :
  recv_headers_loop "" (inbox w) = (raw, rest) ->
  raw <> "" ->
  dict_mem "Host" (snd (parse_headers raw)) = false ->
  exists w' resp,
    handle_connection E w = Ok 0%nat w'
    /\ sent w' = (sent w ++ [resp])%list
    /\ resp = error_response 400 "Bad Request" (date_at E (S (S (ticks w))))
                "400 Bad Request"
    /\ response_status resp = Some 400
    /\ announces_close resp = true
    /\ closed w' = true /\ inbox w' = rest /\ written w' = written w.
Proof.
  intros Hrecv Hraw Hhost. apply String.eqb_neq in Hraw.
  do 2 eexists. split.
  - apply run_from_first_request.
    unfold serve_request, bind, recv_headers. cbn [inbox tick].
    rewrite Hrecv, Hraw. unfold time_time.
    destruct (parse_headers raw) as [request_line headers]. cbn [snd] in Hhost.
    rewrite Hhost, Bool.orb_true_r, send_error_run. reflexivity.
  - split; [reflexivity|]. split; [reflexivity|]. split; [reflexivity|].
    split; [apply Connection.error_response_announces_close|]. repeat split.
Qed.

Lemma missing_host_is_400_and_close_witness :
  exists w' resp,
    handle_connection Demo.demo
      (Demo.fresh [Demo.request "GET /a.txt HTTP/1.1" ["host: 127.0.0.1:8080"] ""])
    = Ok 0%nat w'
    /\ sent w' = [resp] /\ response_status resp = Some 400 /\ closed w' = true.
Proof.
  destruct (missing_host_is_400_and_close Demo.demo
              (Demo.fresh [Demo.request "GET /a.txt HTTP/1.1"
                             ["host: 127.0.0.1:8080"] ""])
              (Demo.request "GET /a.txt HTTP/1.1" ["host: 127.0.0.1:8080"] "") [])
    as (w' & resp & Hrun & Hsent & _ & Hstatus & _ & Hclosed & _).
  - reflexivity.
  - discriminate.
  - reflexivity.
  - exists w', resp. repeat split; assumption.
Defined.

(** X3: a request with a request line and a [Host] header that is neither
    [127.0.0.1:8080] nor [localhost:8080] is answered 403 with Connection:
    close, and the connection is closed with nothing more read. *)
Theorem foreign_host_is_403_and_close (E : env) (w : world) (raw : string)
    (rest : list recv_event) (host : string) :
  recv_headers_loop "" (inbox w) = (raw, rest) ->
  fst (parse_headers raw) <> "" ->
  dict_find "Host" (snd (parse_headers raw)) = Some host ->
  host <> "127.0.0.1:8080" ->
  host <> "localhost:8080" ->
  exists w' resp,
    handle_connection E w = Ok 0%nat w'
    /\ sent w' = (sent w ++ [resp])%list
    /\ resp = error_response 403 "Forbidden" (date_at E (S (S (ticks w))))
                "403 Forbidden"
    /\ response_status resp = Some 403
    /\ announces_close resp = true
    /\ closed w' = true /\ inbox w' = rest /\ written w' = written w.
Proof.
  intros Hrecv Hline Hfind Hh1 Hh2.
  assert (Hraw : (raw =? "")%string = false).
  { destruct (String.eqb_spec raw ""); [subst; now elim Hline | reflexivity]. }
  apply String.eqb_neq in Hline, Hh1, Hh2.
  do 2 eexists. split.
  - apply run_from_first_request.
    unfold serve_request, bind, recv_headers. cbn [inbox tick].
    rewrite Hrecv, Hraw. unfold time_time.
    destruct (parse_headers raw) as [request_line headers]. cbn [fst snd] in *.
    unfold dict_mem, dict_get. rewrite Hline, Hfind. cbn [negb orb].
    unfold host_allowed. cbn [existsb].
    change (HOST ++ ":" ++ str PORT) with "127.0.0.1:8080".
    change ("localhost:" ++ str PORT) with "localhost:8080".
    rewrite Hh1, Hh2. cbn [orb negb]. rewrite send_error_run. reflexivity.
  - split; [reflexivity|]. split; [reflexivity|]. split; [reflexivity|].
    split; [apply Connection.error_response_announces_close|]. repeat split.
Qed.

Lemma foreign_host_is_403_and_close_witness :
  exists w' resp,
    handle_connection Demo.demo
      (Demo.fresh [Demo.request "GET /a.txt HTTP/1.1" ["Host: example.org"] ""])
    = Ok 0%nat w'
    /\ sent w' = [resp] /\ response_status resp = Some 403 /\ closed w' = true.
Proof.
  destruct (foreign_host_is_403_and_close Demo.demo
              (Demo.fresh [Demo.request "GET /a.txt HTTP/1.1"
                             ["Host: example.org"] ""])
              (Demo.request "GET /a.txt HTTP/1.1" ["Host: example.org"] "") []
              "example.org")
    as (w' & resp & Hrun & Hsent & _ & Hstatus & _ & Hclosed & _).
  - reflexivity.
  - discriminate.
  - reflexivity.
  - discriminate.
  - discriminate.
  - exists w', resp. repeat split; assumption.
Defined.

(** X4: a request with an accepted [Host] header whose request line has
    fewer than three tokens is answered 400 with Connection: close, and the
    connection is closed with nothing more read. *)
Theorem short_request_line_is_400_and_close (E : env) (w : world)
    (raw : string) (rest : list recv_event) :
  recv_headers_loop "" (inbox w) = (raw, rest) ->
  dict_mem "Host" (snd (parse_headers raw)) = true ->
  host_allowed (dict_get "Host" (snd (parse_headers raw)) "") = true ->
  (length (split_ws (fst (parse_headers raw))) < 3)%nat ->
  exists w' resp,
    handle_connection E w = Ok 0%nat w'
    /\ sent w' = (sent w ++ [resp])%list
    /\ resp = error_response 400 "Bad Request" (date_at E (S (S (ticks w))))
                "400 Bad Request"
    /\ response_status resp = Some 400
    /\ announces_close resp = true
    /\ closed w' = true /\ inbox w' = rest /\ written w' = written w.
Proof.
  intros Hrecv Hhost Hallowed Hshort.
  assert (Hraw : (raw =? "")%string = false).
  { destruct (String.eqb_spec raw ""); [subst; discriminate Hhost | reflexivity]. }
  apply Nat.ltb_lt in Hshort.
  do 2 eexists. split.
  - apply run_from_first_request.
    unfold serve_request, bind, recv_headers. cbn [inbox tick].
    rewrite Hrecv, Hraw. unfold time_time.
    destruct (parse_headers raw) as [request_line headers]. cbn [fst snd] in *.
    rewrite Hhost, Hallowed, Hshort. cbn [negb].
    destruct (request_line =? "")%string; cbn [orb];
      rewrite send_error_run; reflexivity.
  - split; [reflexivity|]. split; [reflexivity|]. split; [reflexivity|].
    split; [apply Connection.error_response_announces_close|]. repeat split.
Qed.

Lemma short_request_line_is_400_and_close_witness :
  exists w' resp,
    handle_connection Demo.demo
      (Demo.fresh [Demo.request "GET /a.txt" [Demo.good_host] ""])
    = Ok 0%nat w'
    /\ sent w' = [resp] /\ response_status resp = Some 400 /\ closed w' = true.
Proof.
  destruct (short_request_line_is_400_and_close Demo.demo
              (Demo.fresh [Demo.request "GET /a.txt" [Demo.good_host] ""])
              (Demo.request "GET /a.txt" [Demo.good_host] "") [])
    as (w' & resp & Hrun & Hsent & _ & Hstatus & _ & Hclosed & _).
  - reflexivity.
  - reflexivity.
  - reflexivity.
  - vm_compute. lia.
  - exists w', resp. repeat split; assumption.
Defined.

(** X5: a request that passes the host and path checks with a method
    other than GET, HEAD and POST is answered 405 with Connection: close,
    and the connection is closed with nothing more read. *)
Theorem other_method_is_405_and_close (E : env) (w : world) (raw : string)
    (rest : list recv_event) (method path version : string) :
  recv_headers_loop "" (inbox w) = (raw, rest) ->
  dict_mem "Host" (snd (parse_headers raw)) = true ->
  host_allowed (dict_get "Host" (snd (parse_headers raw)) "") = true ->
  split_ws (fst (parse_headers raw)) = [method; path; version] ->
  traversal path = false ->
  method <> "GET" -> method <> "HEAD" -> method <> "POST" ->
  exists w' resp,
    handle_connection E w = Ok 0%nat w'
    /\ sent w' = (sent w ++ [resp])%list
    /\ resp = error_response 405 "Method Not Allowed"
                (date_at E (S (S (ticks w)))) "405 Method Not Allowed"
    /\ response_status resp = Some 405
    /\ announces_close resp = true
    /\ closed w' = true /\ inbox w' = rest /\ written w' = written w.
Proof.
  intros Hrecv Hhost Hallowed Hparts Htrav Hget Hhead Hpost.
  apply String.eqb_neq in Hget, Hhead, Hpost.
  do 2 eexists. split.
  - apply run_from_first_request.
    rewrite (serve_dispatch E 0 (tick w) raw rest method path version); auto.
    cbv zeta. rewrite Hget, Hhead, Hpost. cbn [orb].
    unfold bind. rewrite send_error_run. reflexivity.
  - split; [reflexivity|]. split; [reflexivity|]. split; [reflexivity|].
    split; [apply Connection.error_response_announces_close|]. repeat split.
Qed.

Lemma other_method_is_405_and_close_witness :
  exists w' resp,
    handle_connection Demo.demo
      (Demo.fresh [Demo.request "DELETE /a.txt HTTP/1.1" [Demo.good_host] ""])
    = Ok 0%nat w'
    /\ sent w' = [resp] /\ response_status resp = Some 405 /\ closed w' = true.
Proof.
  destruct (other_method_is_405_and_close Demo.demo
              (Demo.fresh [Demo.request "DELETE /a.txt HTTP/1.1" [Demo.good_host] ""])
              (Demo.request "DELETE /a.txt HTTP/1.1" [Demo.good_host] "") []
              "DELETE" "/a.txt" "HTTP/1.1")
    as (w' & resp & Hrun & Hsent & _ & Hstatus & _ & Hclosed & _).
  - reflexivity.
  - reflexivity.
  - reflexivity.
  - reflexivity.
  - reflexivity.
  - discriminate.
  - discriminate.
  - discriminate.
  - exists w', resp. repeat split; assumption.
Defined.



End LoopExits.

(* ================================================================== *)
(** ** More on the file-serving action *)

Module FileServingMore.
Import Py Http Server Statements Conditions Run.




(** X8: for an HTML file that is present, the response to GET is the
    response to HEAD followed by the content of the file: the same status
    line and headers, with Content-Length the length of the file in both. *)
Theorem html_head_is_get_without_body (E : env) (path : string)
    (keep_alive : bool) (w : world) (filepath body : string) :
  safe_path E RESOURCES_DIR (served_path path) = Returns (Some filepath) ->
  filepath <> "" ->
  isdir E filepath = false ->
  lower (snd (splitext filepath)) = ".html" ->
  file_content E filepath = Holds body ->
  let head :=
    build_response 200 "OK"
      (ok_headers (date_at E (ticks w)) "text/html; charset=utf-8" []
         (len body) keep_alive) "" in
  handle_get_head E path keep_alive "HEAD" w = Ok tt (add_sent head (tick w))
  /\ handle_get_head E path keep_alive "GET" w
     = Ok tt (add_sent (head ++ body) (tick w))
  /\ dict_find "Content-Length"
       (ok_headers (date_at E (ticks w)) "text/html; charset=utf-8" []
          (len body) keep_alive)
     = Some (str (len body))
  /\ response_status head = Some 200.
Proof.
  intros Hsafe Hne Hdir Hext Hfile head.
  apply String.eqb_neq in Hne.
  assert (Hrun : forall method,
             handle_get_head E path keep_alive method w
             = Ok tt (add_sent
                        (build_response 200 "OK"
                           (ok_headers (date_at E (ticks w))
                              "text/html; charset=utf-8" [] (len body) keep_alive)
                           (if (method =? "GET")%string then body else ""))
                        (tick w))).
  { intros method. unfold handle_get_head.
    rewrite Hsafe, Hne, Hdir, Hext, Hfile. reflexivity. }
  split; [apply Hrun|]. split; [|split; reflexivity].
  rewrite Hrun. unfold head, build_response.
  cbn [String.eqb Ascii.eqb Bool.eqb]. now rewrite append_assoc, append_empty_r.
Qed.

Lemma html_head_is_get_without_body_witness :
  exists head,
    handle_get_head Demo.demo "/" true "HEAD" (Demo.fresh [])
    = Ok tt (add_sent head (tick (Demo.fresh [])))
    /\ handle_get_head Demo.demo "/" true "GET" (Demo.fresh [])
       = Ok tt (add_sent (head ++ "<h1>It works</h1>") (tick (Demo.fresh [])))
    /\ response_status head = Some 200.
Proof.
  destruct (html_head_is_get_without_body Demo.demo "/" true (Demo.fresh [])
              "/srv/resources/index.html" "<h1>It works</h1>")
    as (Hhead & Hget & _ & Hstatus).
  - reflexivity.
  - discriminate.
  - reflexivity.
  - reflexivity.
  - reflexivity.
  - eexists. split; [exact Hhead|]. split; [exact Hget | exact Hstatus].
Defined.

(** X9: a path that resolves inside the root to nothing that exists,
    with an extension of the allow-list, is answered 404 with Connection:
    close, one response and no more. *)
Theorem missing_file_is_404 (E : env) (path method : string)
    (keep_alive : bool) (w : world) (filepath : string) :
  safe_path E RESOURCES_DIR (served_path path) = Returns (Some filepath) ->
  filepath <> "" ->
  isdir E filepath = false ->
  allowed_ext (lower (snd (splitext filepath))) = true ->
  file_content E filepath = Missing ->
  exists resp,
    handle_get_head E path keep_alive method w = Ok tt (add_sent resp (tick w))
    /\ resp = error_response 404 "Not Found" (date_at E (ticks w)) "404 Not Found"
    /\ response_status resp = Some 404
    /\ announces_close resp = true.
Proof.
  intros Hsafe Hne Hdir Hext Hfile. apply String.eqb_neq in Hne.
  eexists. split; [|split; [reflexivity|split]].
  - unfold handle_get_head. rewrite Hsafe, Hne, Hdir, Hext, Hfile.
    cbn [orb negb]. apply send_error_run.
  - reflexivity.
  - apply Connection.error_response_announces_close.
Qed.

Lemma missing_file_is_404_witness :
  exists resp,
    handle_get_head Demo.demo "/missing.png" true "GET" (Demo.fresh [])
    = Ok tt (add_sent resp (tick (Demo.fresh [])))
    /\ response_status resp = Some 404.
Proof.
  destruct (missing_file_is_404 Demo.demo "/missing.png" "GET" true
              (Demo.fresh []) "/srv/resources/missing.png")
    as (resp & Hrun & _ & Hstatus & _).
  - reflexivity.
  - discriminate.
  - reflexivity.
  - reflexivity.
  - reflexivity.
  - exists resp. split; assumption.
Defined.

(** X10: a path that resolves to a directory is answered 403 with
    Connection: close, whatever its name: a directory is never listed and
    never gets 404 or 415. *)
Theorem directory_is_403 (E : env) (path method : string)
    (keep_alive : bool) (w : world) (filepath : string) :
  safe_path E RESOURCES_DIR (served_path path) = Returns (Some filepath) ->
  isdir E filepath = true ->
  exists resp,
    handle_get_head E path keep_alive method w = Ok tt (add_sent resp (tick w))
    /\ resp = error_response 403 "Forbidden" (date_at E (ticks w)) "403 Forbidden"
    /\ response_status resp = Some 403
    /\ announces_close resp = true.
Proof.
  intros Hsafe Hdir.
  eexists. split; [|split; [reflexivity|split]].
  - unfold handle_get_head. rewrite Hsafe, Hdir, Bool.orb_true_r.
    apply send_error_run.
  - reflexivity.
  - apply Connection.error_response_announces_close.
Qed.

Lemma directory_is_403_witness :
  exists resp,
    handle_get_head Demo.demo "/uploads" true "GET" (Demo.fresh [])
    = Ok tt (add_sent resp (tick (Demo.fresh [])))
    /\ response_status resp = Some 403.
Proof.
  destruct (directory_is_403 Demo.demo "/uploads" "GET" true (Demo.fresh [])
              "/srv/resources/uploads")
    as (resp & Hrun & _ & Hstatus & _).
  - reflexivity.
  - reflexivity.
  - exists resp. split; assumption.
Defined.

End FileServingMore.

(* ================================================================== *)
(** ** Streaming and path resolution *)

Module Streaming.
Import Py Http Server Statements Conditions Run.

Lemma length_rev_acc (s acc : string) :
  String.length (rev_acc s acc) = (String.length s + String.length acc)%nat.
Proof.
  revert acc. induction s as [|c s IH]; intros acc; simpl; [reflexivity|].
  rewrite IH. simpl. lia.
Qed.

Lemma length_rev (s : string) : String.length (rev s) = String.length s.
Proof. unfold rev. rewrite length_rev_acc. simpl. lia. Qed.

Lemma chunks_go_eq (size : nat) (c : ascii) (s : string) (room : nat)
    (cur : string) :
  chunks_go size (String c s) room cur
  = match room with
    | O => rev cur :: chunks_go size s (size - 1) (String c "")
    | S r => chunks_go size s r (String c cur)
    end.
Proof. reflexivity. Qed.

(** While a chunk is being filled, what it holds and what it may still
    take add up to the chunk size. *)
Lemma chunks_go_sizes (size : nat) (s : string) :
  (1 <= size)%nat ->
  forall room cur,
    (room + String.length cur = size)%nat ->
    Forall (fun chunk => (1 <= String.length chunk <= size)%nat)
      (chunks_go size s room cur)
    /\ Forall (fun chunk => String.length chunk = size)
         (removelast (chunks_go size s room cur)).
Proof.
  intros Hsize. induction s as [|c s IH]; intros room cur Hinv.
  - destruct cur as [|a cur]; cbn [chunks_go].
    + split; constructor.
    + split; [|constructor].
      constructor; [|constructor]. rewrite length_rev. simpl in *. lia.
  - rewrite chunks_go_eq. destruct room as [|r].
    + destruct (IH (size - 1)%nat (String c "")) as [Hall Hfull].
      { simpl. lia. }
      split.
      * constructor; [rewrite length_rev; simpl in *; lia | exact Hall].
      * destruct (chunks_go size s (size - 1) (String c "")) as [|x l] eqn:Hl.
        -- constructor.
        -- change (removelast (rev cur :: x :: l))
             with (rev cur :: removelast (x :: l)).
           constructor; [rewrite length_rev; simpl in *; lia | exact Hfull].
    + apply IH. simpl. lia.
Qed.

(** X11: a file is streamed in chunks of at most 8192 bytes, none empty,
    all but the last of exactly 8192 bytes, which put end to end are the
    file; an empty file gives no chunk. *)
Theorem streamed_chunks_are_bounded (body : string) :
  Forall (fun chunk => 1 <= len chunk <= 8192) (file_chunks FILE_CHUNK body)
  /\ Forall (fun chunk => len chunk = 8192)
       (removelast (file_chunks FILE_CHUNK body))
  /\ String.concat "" (file_chunks FILE_CHUNK body) = body
  /\ (body = "" -> file_chunks FILE_CHUNK body = []).
Proof.
  assert (Hsize : Z.of_nat FILE_CHUNK = 8192) by reflexivity.
  destruct (chunks_go_sizes FILE_CHUNK body ltac:(lia) FILE_CHUNK "")
    as [Hall Hfull].
  { simpl. lia. }
  split; [|split; [|split]].
  - eapply Forall_impl; [|exact Hall]. cbv beta. unfold len. intros chunk H. lia.
  - eapply Forall_impl; [|exact Hfull]. cbv beta. unfold len. intros chunk H. lia.
  - apply file_chunks_concat.
  - intros ->. destruct FILE_CHUNK; reflexivity.
Qed.

Lemma prefix_slash (c : ascii) (s : string) :
  String.prefix "/" (String c s) = Ascii.eqb c "/".
Proof.
  cbn [String.prefix]. destruct (Ascii.ascii_dec "/" c) as [<-|Hne].
  - now destruct s.
  - symmetry. apply Ascii.eqb_neq. congruence.
Qed.

Lemma lstrip_char_no_slash (p : string) :
  startswith (lstrip_char "/" p) "/" = false.
Proof.
  unfold startswith. induction p as [|c p IH]; [reflexivity|].
  cbn [lstrip_char]. destruct (Ascii.eqb c "/") eqn:Hc; [exact IH|].
  now rewrite prefix_slash.
Qed.

Lemma contains_lstrip_char (sub : string) (ch : ascii) (p : string) :
  contains sub p = false -> contains sub (lstrip_char ch p) = false.
Proof.
  induction p as [|c p IH]; intros H; [exact H|].
  cbn [lstrip_char]. destruct (Ascii.eqb c ch); [|exact H].
  apply IH. cbn [contains] in H. now apply Bool.orb_false_iff in H.
Qed.

Lemma contains_skip (sub : string) (c : ascii) (s : string) :
  String.prefix sub (String c s) = false ->
  contains sub (String c s) = contains sub s.
Proof. intros H. cbn [contains]. now rewrite H. Qed.

(** X12: when the traversal check passes, the path the file-serving
    action hands to [realpath] is [resources/] followed by the requested
    path without its leading slashes, and no [..] occurs in it: an absolute
    path never replaces the root in the join, and only the file system (a
    symbolic link) can lead the resolution outside the root. *)
Theorem resolved_argument_stays_below_root (path : string) :
  traversal path = false ->
  path_join RESOURCES_DIR (lstrip_char "/" (served_path path))
  = "resources/" ++ lstrip_char "/" (served_path path)
  /\ contains ".." (path_join RESOURCES_DIR (lstrip_char "/" (served_path path)))
     = false.
Proof.
  intros Htrav.
  assert (Hjoin : path_join RESOURCES_DIR (lstrip_char "/" (served_path path))
                  = "resources/" ++ lstrip_char "/" (served_path path)).
  { unfold path_join. rewrite lstrip_char_no_slash. reflexivity. }
  split; [exact Hjoin|]. rewrite Hjoin.
  assert (Hpath : contains ".." (served_path path) = false).
  { unfold served_path. destruct (path =? "/")%string; [reflexivity|].
    unfold traversal in Htrav.
    apply Bool.orb_false_iff in Htrav as [Htrav _].
    now apply Bool.orb_false_iff in Htrav as [Htrav _]. }
  apply (contains_lstrip_char ".." "/") in Hpath.
  cbn [append].
  repeat (rewrite contains_skip; [|reflexivity]).
  exact Hpath.
Qed.

Lemma resolved_argument_stays_below_root_witness :
  path_join RESOURCES_DIR (lstrip_char "/" (served_path "/.hidden/a.txt"))
  = "resources/.hidden/a.txt"
  /\ contains ".." (path_join RESOURCES_DIR
                      (lstrip_char "/" (served_path "/.hidden/a.txt"))) = false.
Proof.
  apply (resolved_argument_stays_below_root "/.hidden/a.txt"). reflexivity.
Defined.

End Streaming.

(* ================================================================== *)
(** ** More on the upload action *)

Module UploadMore.
Import Py Http Server Statements Conditions Run.

Lemma len_append (a b : string) : len (a ++ b) = len a + len b.
Proof.
  unfold len. induction a as [|c a IH]; [reflexivity|].
  cbn [append String.length]. lia.
Qed.

Lemma len_nonneg (s : string) : 0 <= len s.
Proof. unfold len. lia. Qed.

Lemma prefix_of_append (s b : string) : String.prefix s (s ++ b) = true.
Proof.
  induction s as [|c s IH]; [now destruct b|].
  cbn [append String.prefix]. now destruct (Ascii.ascii_dec c c).
Qed.

Lemma contains_at_start (sub b : string) : contains sub (sub ++ b) = true.
Proof.
  destruct (sub ++ b) eqn:H; cbn [contains];
    rewrite <- H, prefix_of_append; reflexivity.
Qed.

Lemma upload_accepted (E : env) (headers : dict) (body : string)
    (keep_alive : bool) (n : Z) :
  contains "application/json" (dict_get "Content-Type" headers "") = true ->
  int (dict_get "Content-Length" headers "0") = Some n ->
  handle_post E "/upload" headers body keep_alive
  = bind (read_body n body) (fun data => store_upload E data keep_alive).
Proof.
  intros Htype Hint. unfold handle_post. rewrite Htype, Hint. reflexivity.
Qed.

(** X13: a POST to a path other than [/upload], or whose Content-Type
    header is absent or does not contain [application/json], is answered
    415 with Connection: close; the body is not read and no file is
    written, whatever it holds. *)
Theorem post_elsewhere_is_415 (E : env) (path : string) (headers : dict)
    (body : string) (keep_alive : bool) (w : world) :
  path <> "/upload"
  \/ contains "application/json" (dict_get "Content-Type" headers "") = false ->
  exists resp,
    handle_post E path headers body keep_alive w = Ok tt (add_sent resp (tick w))
    /\ resp = error_response 415 "Unsupported Media Type" (date_at E (ticks w))
                "415 Unsupported Media Type"
    /\ response_status resp = Some 415
    /\ announces_close resp = true.
Proof.
  intros H.
  assert (Hguard : negb (path =? "/upload")%string
                   || negb (contains "application/json"
                              (dict_get "Content-Type" headers "")) = true).
  { destruct H as [H|H].
    - apply String.eqb_neq in H. now rewrite H.
    - rewrite H. apply Bool.orb_true_r. }
  eexists. split; [|split; [reflexivity|split]].
  - unfold handle_post. rewrite Hguard. apply send_error_run.
  - reflexivity.
  - apply Connection.error_response_announces_close.
Qed.

Lemma post_elsewhere_is_415_witness :
  exists resp,
    handle_post Demo.demo "/upload" [("Content-Type", "text/plain")] "{}" true
      (Demo.fresh [])
    = Ok tt (add_sent resp (tick (Demo.fresh [])))
    /\ response_status resp = Some 415.
Proof.
  destruct (post_elsewhere_is_415 Demo.demo "/upload"
              [("Content-Type", "text/plain")] "{}" true (Demo.fresh []))
    as (resp & Hrun & _ & Hstatus & _).
  - right. reflexivity.
  - exists resp. split; assumption.
Defined.

(** X14: a POST to [/upload] with a JSON content type whose
    Content-Length is not an integer makes [handle_connection] raise
    ValueError: the client gets no response, no file is written and the
    handler does not close the socket. *)
Theorem bad_content_length_raises (E : env) (w : world) (raw : string)
    (rest : list recv_event) (version : string) :
  recv_headers_loop "" (inbox w) = (raw, rest) ->
  dict_mem "Host" (snd (parse_headers raw)) = true ->
  host_allowed (dict_get "Host" (snd (parse_headers raw)) "") = true ->
  split_ws (fst (parse_headers raw)) = ["POST"; "/upload"; version] ->
  contains "application/json"
    (dict_get "Content-Type" (snd (parse_headers raw)) "") = true ->
  int (dict_get "Content-Length" (snd (parse_headers raw)) "0") = None ->
  exists w',
    handle_connection E w = Raised ValueError w'
    /\ sent w' = sent w /\ closed w' = closed w /\ written w' = written w.
Proof.
  intros Hrecv Hhost Hallowed Hparts Htype Hint.
  eexists. split.
  - rewrite Connection.handle_connection_first, Connection.max_requests_S,
      Connection.connection_loop_S.
    rewrite (LoopExits.serve_dispatch E 0 (tick w) raw rest "POST" "/upload" version);
      auto.
    cbv zeta. cbn [String.eqb Ascii.eqb Bool.eqb orb].
    unfold bind at 1. unfold handle_post. rewrite Htype, Hint. reflexivity.
  - repeat split.
Qed.

Lemma bad_content_length_raises_witness :
  exists w',
    handle_connection Demo.demo
      (Demo.fresh [Demo.request "POST /upload HTTP/1.1"
                     [Demo.good_host; "Content-Type: application/json";
                      "Content-Length: two"] "{}"])
    = Raised ValueError w'
    /\ sent w' = [] /\ closed w' = false /\ written w' = [].
Proof.
  apply (bad_content_length_raises Demo.demo
           (Demo.fresh [Demo.request "POST /upload HTTP/1.1"
                          [Demo.good_host; "Content-Type: application/json";
                           "Content-Length: two"] "{}"])
           (Demo.request "POST /upload HTTP/1.1"
              [Demo.good_host; "Content-Type: application/json";
               "Content-Length: two"] "{}")
           [] "HTTP/1.1"); reflexivity.
Defined.

(** X15: when an accepted upload has no Content-Length header, or one
    that does not exceed what is already buffered (zero and negative values
    included), nothing is read from the connection: the buffered bytes, all
    of them, are what is parsed. *)
Theorem upload_without_more_to_read (E : env) (headers : dict) (body : string)
    (keep_alive : bool) (w : world) :
  contains "application/json" (dict_get "Content-Type" headers "") = true ->
  dict_find "Content-Length" headers = None
  \/ (exists n, int (dict_get "Content-Length" headers "0") = Some n
                /\ n <= len body) ->
  handle_post E "/upload" headers body keep_alive w
  = store_upload E body keep_alive w.
Proof.
  intros Htype Hlen.
  assert (H : exists n, int (dict_get "Content-Length" headers "0") = Some n
                        /\ n <= len body).
  { destruct Hlen as [Hnone|H]; [|exact H].
    exists 0. unfold dict_get. rewrite Hnone. split; [reflexivity|apply len_nonneg]. }
  destruct H as (n & Hint & Hn).
  rewrite (upload_accepted E headers body keep_alive n Htype Hint).
  unfold bind, read_body. rewrite Upload.read_body_loop_eq.
  destruct (len body <? n) eqn:Hlt; [apply Z.ltb_lt in Hlt; lia|].
  now destruct w.
Qed.

Lemma upload_without_more_to_read_witness :
  handle_post Demo.demo "/upload" [("Content-Type", "application/json")] "[]"
    false (Demo.fresh ["later"])
  = store_upload Demo.demo "[]" false (Demo.fresh ["later"]).
Proof.
  apply (upload_without_more_to_read Demo.demo
           [("Content-Type", "application/json")] "[]" false
           (Demo.fresh ["later"])).
  - reflexivity.
  - left. reflexivity.
Defined.

Lemma read_body_loop_starved (n : Z) :
  forall (chunks : list string) (body : string),
    len (body ++ String.concat "" chunks) < n ->
    read_body_loop n body (map Chunk chunks) = BodySpins
    /\ forall rest,
         read_body_loop n body (map Chunk chunks ++ TimedOut :: rest)%list
         = BodyTimedOut rest.
Proof.
  induction chunks as [|c cs IH]; intros body Hlen.
  - cbn [String.concat] in Hlen. rewrite append_empty_r in Hlen.
    apply Z.ltb_lt in Hlen.
    split; [|intros rest]; rewrite Upload.read_body_loop_eq, Hlen; reflexivity.
  - rewrite concat_cons, <- append_assoc in Hlen.
    assert (Hbody : (len body <? n) = true).
    { apply Z.ltb_lt. rewrite !len_append in Hlen.
      pose proof (len_nonneg c). pose proof (len_nonneg (String.concat "" cs)). lia. }
    destruct (IH (body ++ c) Hlen) as [Hspin Htimeout].
    split; [|intros rest]; rewrite Upload.read_body_loop_eq, Hbody; cbn [map app];
      [exact Hspin | apply Htimeout].
Qed.

(** X16: when the peer closes the connection before the declared
    Content-Length has arrived, the upload action never returns: every
    further [recv] returns the empty string at once and the loop goes round
    for ever.  No response is sent and no file is written. *)
Theorem upload_spins_when_peer_closes_early (E : env) (headers : dict)
    (body : string) (keep_alive : bool) (w : world) (n : Z)
    (chunks : list string) :
  contains "application/json" (dict_get "Content-Type" headers "") = true ->
  int (dict_get "Content-Length" headers "0") = Some n ->
  inbox w = map Chunk chunks ->
  len (body ++ String.concat "" chunks) < n ->
  exists w',
    handle_post E "/upload" headers body keep_alive w = Diverged w'
    /\ sent w' = sent w /\ written w' = written w /\ closed w' = closed w.
Proof.
  intros Htype Hint Hinbox Hlen.
  eexists. split.
  - rewrite (upload_accepted E headers body keep_alive n Htype Hint).
    unfold bind, read_body. rewrite Hinbox.
    rewrite (proj1 (read_body_loop_starved n chunks body Hlen)). reflexivity.
  - repeat split.
Qed.

Lemma upload_spins_when_peer_closes_early_witness :
  exists w',
    handle_post Demo.demo "/upload"
      [("Content-Type", "application/json"); ("Content-Length", "10")]
      "{" true (Demo.fresh ["}"])
    = Diverged w'
    /\ sent w' = [] /\ written w' = [] /\ closed w' = false.
Proof.
  apply (upload_spins_when_peer_closes_early Demo.demo
           [("Content-Type", "application/json"); ("Content-Length", "10")]
           "{" true (Demo.fresh ["}"]) 10 ["}"]); reflexivity.
Defined.

(** X17: when a [recv] times out before the declared Content-Length has
    arrived, [socket.timeout] escapes the upload action: no response is
    sent, no file is written and the socket is left open. *)
Theorem upload_timeout_escapes (E : env) (headers : dict) (body : string)
    (keep_alive : bool) (w : world) (n : Z) (chunks : list string)
    (rest : list recv_event) :
  contains "application/json" (dict_get "Content-Type" headers "") = true ->
  int (dict_get "Content-Length" headers "0") = Some n ->
  inbox w = (map Chunk chunks ++ TimedOut :: rest)%list ->
  len (body ++ String.concat "" chunks) < n ->
  exists w',
    handle_post E "/upload" headers body keep_alive w = Raised SocketTimeout w'
    /\ inbox w' = rest
    /\ sent w' = sent w /\ written w' = written w /\ closed w' = closed w.
Proof.
  intros Htype Hint Hinbox Hlen.
  eexists. split.
  - rewrite (upload_accepted E headers body keep_alive n Htype Hint).
    unfold bind, read_body. rewrite Hinbox.
    rewrite (proj2 (read_body_loop_starved n chunks body Hlen) rest). reflexivity.
  - repeat split.
Qed.

Lemma upload_timeout_escapes_witness :
  exists w',
    handle_post Demo.demo "/upload"
      [("Content-Type", "application/json"); ("Content-Length", "10")]
      "{" true (mkWorld [Chunk "}"; TimedOut] [] false [] 0)
    = Raised SocketTimeout w'
    /\ inbox w' = []
    /\ sent w' = [] /\ written w' = [] /\ closed w' = false.
Proof.
  apply (upload_timeout_escapes Demo.demo
           [("Content-Type", "application/json"); ("Content-Length", "10")]
           "{" true (mkWorld [Chunk "}"; TimedOut] [] false [] 0) 10 ["}"] []);
    reflexivity.
Defined.

(** X18: when the accumulated bytes parse as JSON, the upload action
    writes one file, [resources/uploads/upload_<timestamp>_<id>.json],
    holding the serialization of the parsed value, and sends one response,
    201, whose body reports the path [/uploads/<file name>] and whose
    Content-Length is the length of that body. *)
Theorem upload_success (E : env) (headers : dict) (body : string)
    (keep_alive : bool) (w : world) (n : Z) (data : string)
    (rest : list recv_event) (value : json) :
  contains "application/json" (dict_get "Content-Type" headers "") = true ->
  int (dict_get "Content-Length" headers "0") = Some n ->
  read_body_loop n body (inbox w) = BodyRead data rest ->
  parse_json E data = Some value ->
  let filename :=
    "upload_" ++ utcstamp_at E (ticks w) ++ "_"
    ++ random_id_at E (S (ticks w)) ++ ".json" in
  let report := encode (upload_report filename) in
  exists w' resp,
    handle_post E "/upload" headers body keep_alive w = Ok tt w'
    /\ written w'
       = (written w
          ++ [(("resources/uploads/" ++ filename)%string, json_dump E value)])%list
    /\ sent w' = (sent w ++ [resp])%list
    /\ resp = build_response 201 "Created"
                (ok_headers (date_at E (S (S (ticks w)))) "application/json" []
                   (len report) keep_alive)
                report
    /\ response_status resp = Some 201
    /\ contains ("/uploads/" ++ filename) (upload_report filename) = true
    /\ inbox w' = rest /\ closed w' = closed w.
Proof.
  intros Htype Hint Hread Hparse filename report.
  do 2 eexists. split.
  - rewrite (upload_accepted E headers body keep_alive n Htype Hint).
    unfold bind at 1. unfold read_body. rewrite Hread.
    unfold store_upload. rewrite Hparse.
    unfold bind, utc_timestamp, random_id, write_file, http_date_now, sendall.
    cbn [ticks tick set_inbox]. reflexivity.
  - split.
    { cbn [written add_sent tick add_written set_inbox]. reflexivity. }
    split; [reflexivity|]. split; [reflexivity|]. split; [reflexivity|].
    split; [|split; reflexivity].
    unfold upload_report. do 22 (apply Connection.contains_app_r).
    rewrite <- append_assoc. apply contains_at_start.
Qed.

Lemma upload_success_witness :
  exists w' resp,
    handle_post Demo.demo "/upload"
      [("Content-Type", "application/json"); ("Content-Length", "2")]
      "{" true (Demo.fresh ["}"])
    = Ok tt w'
    /\ written w'
       = [("resources/uploads/upload_20261103_120000_k3x9.json", "{}")]
    /\ sent w' = [resp] /\ response_status resp = Some 201.
Proof.
  destruct (upload_success Demo.demo
              [("Content-Type", "application/json"); ("Content-Length", "2")]
              "{" true (Demo.fresh ["}"]) 2 "{}" [] (JObj []))
    as (w' & resp & Hrun & Hwritten & Hsent & _ & Hstatus & _).
  - reflexivity.
  - reflexivity.
  - reflexivity.
  - reflexivity.
  - exists w', resp. repeat split; assumption.
Defined.

End UploadMore.

(* ================================================================== *)
(** ** Reading and parsing a request *)

Module Framing.
Import Py Http Server Statements Conditions Run.

(** The loop of [recv_headers], read back from its result: the chunks it
    took, and why it stopped. *)
Lemma recv_headers_loop_trace :
  forall (inb : list recv_event) (data0 data : string) (rest : list recv_event),
    recv_headers_loop data0 inb = (data, rest) ->
    exists chunks : list string,
      data = data0 ++ String.concat "" chunks
      /\ (forall j, (j < length chunks)%nat ->
            contains CRLF2 (data0 ++ String.concat "" (firstn j chunks)) = false
            /\ len (data0 ++ String.concat "" (firstn j chunks)) < MAX_HEADER_SIZE)
      /\ ((inb = (map Chunk chunks ++ rest)%list
           /\ (contains CRLF2 data = true \/ MAX_HEADER_SIZE <= len data \/ rest = []))
          \/ (exists stop, inb = (map Chunk chunks ++ stop :: rest)%list
                           /\ nothing_arrives [stop] = true)).
Proof.
  induction inb as [|ev inb IH]; intros data0 data rest Hrun;
    rewrite Connection.recv_headers_loop_eq in Hrun;
    destruct (negb (contains CRLF2 data0) && (len data0 <? MAX_HEADER_SIZE)) eqn:Hgo.
  - injection Hrun as <- <-. exists []. cbn. rewrite append_empty_r.
    split; [reflexivity|]. split; [intros j Hj; lia|]. left. auto.
  - injection Hrun as <- <-. exists []. cbn. rewrite append_empty_r.
    split; [reflexivity|]. split; [intros j Hj; lia|]. left. auto.
  - apply Bool.andb_true_iff in Hgo as [Hopen Hroom].
    apply Bool.negb_true_iff in Hopen. apply Z.ltb_lt in Hroom.
    destruct ev as [chunk|].
    + destruct (chunk =? "")%string eqn:Hchunk.
      * injection Hrun as <- <-. exists []. cbn. rewrite append_empty_r.
        split; [reflexivity|]. split; [intros j Hj; lia|].
        right. exists (Chunk chunk). split; [reflexivity | exact Hchunk].
      * destruct (IH _ _ _ Hrun) as (chunks & Hdata & Hbefore & Hwhy).
        exists (chunk :: chunks).
        split; [rewrite concat_cons, <- append_assoc; exact Hdata|].
        split.
        { intros [|j] Hj.
          - cbn. rewrite append_empty_r. auto.
          - rewrite firstn_cons, concat_cons, <- append_assoc.
            apply Hbefore. cbn in Hj. lia. }
        destruct Hwhy as [[Hinb Hend]|(stop & Hinb & Hstop)].
        -- left. split; [cbn [map app]; now rewrite Hinb | exact Hend].
        -- right. exists stop. split; [cbn [map app]; now rewrite Hinb | exact Hstop].
    + injection Hrun as <- <-. exists []. cbn. rewrite append_empty_r.
      split; [reflexivity|]. split; [intros j Hj; lia|].
      right. exists TimedOut. split; reflexivity.
  - injection Hrun as <- <-. exists []. cbn. rewrite append_empty_r.
    split; [reflexivity|]. split; [intros j Hj; lia|].
    left. split; [reflexivity|].
    apply Bool.andb_false_iff in Hgo as [Hgo|Hgo].
    + left. now apply Bool.negb_false_iff in Hgo.
    + right; left. now apply Z.ltb_ge in Hgo.
Qed.

(** X19: what [recv_headers] returns is what arrived, in order and whole:
    the results of the [recv] calls it made put end to end.  It calls [recv]
    again only while the data holds no blank line and is shorter than
    MAX_HEADER_SIZE, and it stops for one of four reasons: the blank line is
    there, the size is reached, the peer closed, or a read timed out or came
    back empty (that read is consumed). *)
Theorem recv_headers_returns_what_arrived (w : world) :
  exists (data : string) (rest : list recv_event) (chunks : list string),
    recv_headers w = Ok data (set_inbox rest w)
    /\ data = String.concat "" chunks
    /\ (forall j, (j < length chunks)%nat ->
          contains CRLF2 (String.concat "" (firstn j chunks)) = false
          /\ len (String.concat "" (firstn j chunks)) < MAX_HEADER_SIZE)
    /\ ((inbox w = (map Chunk chunks ++ rest)%list
         /\ (contains CRLF2 data = true \/ MAX_HEADER_SIZE <= len data \/ rest = []))
        \/ (exists stop, inbox w = (map Chunk chunks ++ stop :: rest)%list
                         /\ nothing_arrives [stop] = true)).
Proof.
  unfold recv_headers.
  destruct (recv_headers_loop "" (inbox w)) as [data rest] eqn:Hrun.
  destruct (recv_headers_loop_trace _ _ _ _ Hrun) as (chunks & Hdata & Hbefore & Hwhy).
  exists data, rest, chunks. cbn [append] in *. auto.
Qed.

Lemma recv_headers_loop_bound (size : Z) :
  forall (inb : list recv_event) (data0 data : string) (rest : list recv_event),
    chunks_within size inb ->
    len data0 < MAX_HEADER_SIZE + size ->
    recv_headers_loop data0 inb = (data, rest) ->
    len data < MAX_HEADER_SIZE + size.
Proof.
  induction inb as [|ev inb IH]; intros data0 data rest Hsmall Hlen Hrun;
    rewrite Connection.recv_headers_loop_eq in Hrun;
    destruct (negb (contains CRLF2 data0) && (len data0 <? MAX_HEADER_SIZE)) eqn:Hgo;
    try (injection Hrun as <- <-; exact Hlen).
  apply Bool.andb_true_iff in Hgo as [_ Hroom]. apply Z.ltb_lt in Hroom.
  inversion Hsmall as [|ev' inb' Hev Hinb]; subst.
  destruct ev as [chunk|]; [|injection Hrun as <- <-; exact Hlen].
  destruct (chunk =? "")%string; [injection Hrun as <- <-; exact Hlen|].
  apply (IH (data0 ++ chunk) data rest Hinb); [|exact Hrun].
  rewrite UploadMore.len_append. lia.
Qed.

(** X20: as [recv] is asked for at most 1024 bytes at a time, the data
    [recv_headers] returns is shorter than MAX_HEADER_SIZE + 1024 bytes
    (9216), however much the client sends and whether or not a blank line
    ever comes. *)
Theorem header_block_is_bounded (w : world) (data : string) (w' : world) :
  chunks_within 1024 (inbox w) ->
  recv_headers w = Ok data w' ->
  len data < 9216.
Proof.
  intros Hsmall Hrun. unfold recv_headers in Hrun.
  destruct (recv_headers_loop "" (inbox w)) as [d rest] eqn:Hloop.
  injection Hrun as <- _.
  apply (recv_headers_loop_bound 1024 (inbox w) "" d rest Hsmall); [|exact Hloop].
  reflexivity.
Qed.

Lemma header_block_is_bounded_witness :
  len (Demo.request "GET / HTTP/1.1" [Demo.good_host] "") < 9216.
Proof.
  apply (header_block_is_bounded
           (Demo.fresh [Demo.request "GET / HTTP/1.1" [Demo.good_host] ""; "later"])
           (Demo.request "GET / HTTP/1.1" [Demo.good_host] "")
           (Demo.fresh ["later"])).
  - repeat constructor; vm_compute; discriminate.
  - reflexivity.
Defined.

Lemma substring_whole (s : string) :
  forall m : nat, (String.length s <= m)%nat -> substring 0 m s = s.
Proof.
  induction s as [|c s IH]; intros m Hm.
  - now destruct m.
  - destruct m as [|m]; [cbn in Hm; lia|].
    cbn. f_equal. apply IH. cbn in Hm. lia.
Qed.

Lemma prefix_split_at (a : string) :
  forall (s : string) (m : nat),
    String.prefix a s = true ->
    (String.length s <= m)%nat ->
    s = a ++ substring (String.length a) m s.
Proof.
  induction a as [|c a IH]; intros s m H Hm.
  - cbn. symmetry. now apply substring_whole.
  - destruct s as [|d s]; [discriminate H|].
    cbn [String.prefix] in H.
    destruct (Ascii.ascii_dec c d) as [<-|]; [|discriminate H].
    cbn. f_equal. apply IH; [exact H | cbn in Hm; lia].
Qed.

Lemma prefix_split (a s : string) :
  String.prefix a s = true ->
  s = a ++ substring (String.length a) (String.length s) s.
Proof. intros H. now apply prefix_split_at. Qed.

Lemma split1_go_eq (sep s cur : string) :
  split1_go sep s cur
  = if String.prefix sep s
    then Some (rev cur, substring (String.length sep) (String.length s) s)
    else match s with
         | EmptyString => None
         | String c s' => split1_go sep s' (String c cur)
         end.
Proof. destruct s; reflexivity. Qed.

(** [split1] cuts at the first occurrence of the separator. *)
Lemma split1_go_first (sep : string) :
  forall (s cur a b : string),
    split1_go sep s cur = Some (a, b) ->
    exists head : string,
      a = rev cur ++ head
      /\ s = head ++ sep ++ b
      /\ forall x y : string,
           head = x ++ y -> y <> "" -> String.prefix sep (y ++ sep ++ b) = false.
Proof.
  induction s as [|c s IH]; intros cur a b Hrun; rewrite split1_go_eq in Hrun.
  - destruct (String.prefix sep "") eqn:Hp; [|discriminate Hrun].
    injection Hrun as <- <-. exists "".
    split; [now rewrite append_empty_r|].
    split; [now apply prefix_split|].
    intros x y Hxy Hy. destruct x; [cbn in Hxy; now subst y | discriminate Hxy].
  - destruct (String.prefix sep (String c s)) eqn:Hp.
    + injection Hrun as <- <-. exists "".
      split; [now rewrite append_empty_r|].
      split; [now apply prefix_split|].
      intros x y Hxy Hy. destruct x; [cbn in Hxy; now subst y | discriminate Hxy].
    + destruct (IH _ _ _ Hrun) as (head & Ha & Hs & Hfirst).
      exists (String c head).
      split; [rewrite Ha, rev_cons, append_assoc; reflexivity|].
      split; [cbn; now rewrite <- Hs|].
      intros x y Hxy Hy. destruct x as [|d x].
      * cbn in Hxy. subst y. cbn [append]. now rewrite <- Hs.
      * cbn in Hxy. injection Hxy as _ Hxy. now apply (Hfirst x y).
Qed.

Lemma split1_go_found (sep : string) :
  forall (s cur : string),
    contains sep s = true -> split1_go sep s cur <> None.
Proof.
  induction s as [|c s IH]; intros cur H; rewrite split1_go_eq.
  - cbn [contains] in H. rewrite Bool.orb_false_r in H. now rewrite H.
  - cbn [contains] in H. destruct (String.prefix sep (String c s)); [discriminate|].
    now apply IH.
Qed.

(** X21: the bytes handed to the upload action as the body already read
    are those that follow the first blank line of what [recv_headers]
    returned, all of them; without a blank line the body starts empty. *)
Theorem buffered_body_follows_first_blank_line (raw : string) :
  (contains CRLF2 raw = false -> buffered_body raw = "")
  /\ (contains CRLF2 raw = true ->
      exists head : string,
        raw = head ++ CRLF2 ++ buffered_body raw
        /\ forall x y : string,
             head = x ++ y -> y <> "" ->
             String.prefix CRLF2 (y ++ CRLF2 ++ buffered_body raw) = false).
Proof.
  unfold buffered_body. split; intros H; rewrite H; [reflexivity|].
  unfold split1.
  destruct (split1_go CRLF2 raw "") as [[a b]|] eqn:Hrun.
  - destruct (split1_go_first CRLF2 raw "" a b Hrun) as (head & _ & Hraw & Hfirst).
    exists head. split; assumption.
  - now elim (split1_go_found CRLF2 raw "" H).
Qed.

Lemma buffered_body_follows_first_blank_line_witness :
  buffered_body "GET / HTTP/1.1" = ""
  /\ exists head,
       Demo.request "POST /upload HTTP/1.1" [Demo.good_host] "{}"
       = head ++ CRLF2
         ++ buffered_body (Demo.request "POST /upload HTTP/1.1" [Demo.good_host] "{}").
Proof.
  split.
  - apply (proj1 (buffered_body_follows_first_blank_line "GET / HTTP/1.1")).
    reflexivity.
  - destruct (proj2 (buffered_body_follows_first_blank_line
                       (Demo.request "POST /upload HTTP/1.1" [Demo.good_host] "{}")))
      as (head & Hraw & _).
    + reflexivity.
    + exists head. exact Hraw.
Defined.

Lemma dict_find_set_same (k v : string) (d : dict) :
  dict_find k (dict_set k v d) = Some v.
Proof.
  induction d as [|[k0 v0] d IH]; cbn.
  - now rewrite String.eqb_refl.
  - destruct (k0 =? k)%string eqn:Hk; cbn; rewrite Hk; [reflexivity | exact IH].
Qed.

Lemma dict_find_set_other (k k' v : string) (d : dict) :
  k' <> k -> dict_find k' (dict_set k v d) = dict_find k' d.
Proof.
  intros Hne. induction d as [|[k0 v0] d IH]; cbn.
  - apply String.eqb_neq in Hne. rewrite String.eqb_sym in Hne. now rewrite Hne.
  - destruct (String.eqb_spec k0 k) as [->|Hk]; cbn.
    + apply String.eqb_neq in Hne. rewrite String.eqb_sym in Hne. now rewrite Hne.
    + now rewrite IH.
Qed.

(** X22: a line with a colon and a space is read as a header whose name
    is the text before the first colon-space and whose value is all the
    text after it, both stripped; it replaces the value an earlier line gave
    to the same name and touches no other name.  A line without colon-space
    is skipped. *)
Theorem header_line_sets_one_name (headers : dict) (line : string) :
  (contains ": " line = false -> add_header_line headers line = headers)
  /\ (contains ": " line = true ->
      exists name value : string,
        line = name ++ ": " ++ value
        /\ (forall x y : string,
              name = x ++ y -> y <> "" ->
              String.prefix ": " (y ++ ": " ++ value) = false)
        /\ dict_find (strip name) (add_header_line headers line) = Some (strip value)
        /\ forall other : string,
             other <> strip name ->
             dict_find other (add_header_line headers line) = dict_find other headers).
Proof.
  unfold add_header_line. split; intros H; rewrite H; [reflexivity|].
  unfold split1.
  destruct (split1_go ": " line "") as [[k v]|] eqn:Hrun.
  - destruct (split1_go_first ": " line "" k v Hrun) as (head & Hk & Hline & Hfirst).
    cbn [rev rev_acc append] in Hk. subst head.
    exists k, v. split; [exact Hline|]. split; [exact Hfirst|].
    split; [apply dict_find_set_same|].
    intros other Hother. now apply dict_find_set_other.
  - now elim (split1_go_found ": " line "" H).
Qed.

Lemma header_line_sets_one_name_witness :
  add_header_line [("Host", "a")] "Host:b" = [("Host", "a")]
  /\ exists name value,
       "Host:  b: c " = name ++ ": " ++ value
       /\ dict_find (strip name) (add_header_line [("Host", "a")] "Host:  b: c ")
          = Some (strip value).
Proof.
  split.
  - apply (proj1 (header_line_sets_one_name [("Host", "a")] "Host:b")). reflexivity.
  - destruct (proj2 (header_line_sets_one_name [("Host", "a")] "Host:  b: c "))
      as (name & value & Hline & _ & Hfind & _).
    + reflexivity.
    + exists name, value. split; assumption.
Defined.

(** X23: the headers parsed from a request hold no name twice, whatever
    the request repeats. *)
Theorem parsed_headers_have_unique_names (raw : string) :
  NoDup (map fst (snd (parse_headers raw))).
Proof.
  unfold parse_headers. cbn [snd].
  assert (H : forall lines headers,
             NoDup (map fst headers) ->
             NoDup (map fst (fold_left add_header_line lines headers))).
  { induction lines as [|line lines IH]; intros headers Hh; [exact Hh|].
    cbn [fold_left]. apply IH. now apply add_header_line_nodup. }
  apply H. constructor.
Qed.

End Framing.

(* ================================================================== *)
(** ** The worker pool *)

Module PoolFacts.
Import Py Http Server Statements Conditions Run Pool.

Section QueueFacts.
Variable item : Type.

Lemma pool_step_ok (p : pool item) (op : pool_op item) :
  pool_ok p -> pool_ok (pool_step p op).
Proof.
  intros [Hsize Hfifo]. destruct op as [x|]; unfold pool_step.
  - unfold submit. destruct (length (waiting p) <? QUEUE_MAXSIZE)%nat eqn:Hroom.
    + apply Nat.ltb_lt in Hroom. split; cbn [waiting taken admitted].
      * rewrite length_app. cbn. lia.
      * now rewrite app_assoc, Hfifo.
    + split; assumption.
  - destruct (waiting p) as [|x q] eqn:Hq; cbn [get].
    + split; [rewrite Hq; cbn; lia | now rewrite Hq].
    + split; cbn [waiting taken admitted].
      * cbn in Hsize. lia.
      * now rewrite <- app_assoc.
Qed.

Lemma pool_fold_ok (ops : list (pool_op item)) :
  forall p, pool_ok p -> pool_ok (fold_left pool_step ops p).
Proof.
  induction ops as [|op ops IH]; intros p Hp; [exact Hp|].
  cbn [fold_left]. apply IH. now apply pool_step_ok.
Qed.

(** X24: whatever calls the accept loop and the workers make on the
    queue, and in whatever order they take effect, at most QUEUE_MAXSIZE
    connections wait in it, and the workers get the admitted connections in
    the order they were admitted, each once: what was taken followed by what
    still waits is what was admitted.  [submit] refuses exactly when the
    queue is full, and then leaves it as it was. *)
Theorem queue_is_bounded_and_fifo (ops : list (pool_op item)) :
  (length (waiting (pool_run ops)) <= QUEUE_MAXSIZE)%nat
  /\ (taken (pool_run ops) ++ waiting (pool_run ops))%list = admitted (pool_run ops)
  /\ (forall (q : queue item) (x : item),
        (fst (submit q x) = false <-> (QUEUE_MAXSIZE <= length q)%nat)
        /\ (fst (submit q x) = false -> snd (submit q x) = q)).
Proof.
  destruct (pool_fold_ok ops (empty_pool item)) as [Hsize Hfifo].
  { split; [cbn; lia | reflexivity]. }
  split; [exact Hsize|]. split; [exact Hfifo|].
  intros q x. unfold submit.
  destruct (length q <? QUEUE_MAXSIZE)%nat eqn:Hroom; cbn [fst snd].
  - apply Nat.ltb_lt in Hroom. split; [split; [discriminate | lia] | discriminate].
  - apply Nat.ltb_ge in Hroom. split; [split; [intros _; exact Hroom | reflexivity] | reflexivity].
Qed.

End QueueFacts.

Lemma overload_response_lines (date body : string) :
  let resp :=
    build_response 503 "Service Unavailable"
      [("Date", date); ("Retry-After", str RETRY_AFTER); ("Connection", "close")]
      body in
  contains (CRLF ++ "Retry-After: 5" ++ CRLF) resp = true
  /\ announces_close resp = true.
Proof.
  cbv zeta. unfold announces_close, build_response, header_lines.
  cbn [fold_left fst snd].
  replace (("HTTP/1.1 " ++ str 503 ++ " " ++ "Service Unavailable" ++ CRLF)
           ++ ((("" ++ "Date" ++ ": " ++ date ++ CRLF)
                ++ "Retry-After" ++ ": " ++ str RETRY_AFTER ++ CRLF)
               ++ "Connection" ++ ": " ++ "close" ++ CRLF) ++ CRLF)
    with (("HTTP/1.1 503 Service Unavailable" ++ CRLF ++ "Date: " ++ date)
          ++ (CRLF ++ "Retry-After: 5" ++ CRLF ++ "Connection: close" ++ CRLF ++ CRLF)).
  - rewrite Connection.encode_app, append_assoc.
    split; apply Connection.contains_app_r; reflexivity.
  - change (str 503) with "503". change (str RETRY_AFTER) with "5".
    repeat (rewrite append_assoc; cbn [append]). reflexivity.
Qed.

(** X25: the accept loop hands a socket to the pool when fewer than
    QUEUE_MAXSIZE connections wait, without sending anything on it.  When
    the queue is full it answers the socket itself: one response, 503 with
    Retry-After: 5 and Connection: close, then it closes the socket, which
    never enters the queue. *)
Theorem overload_is_503_and_close (E : env) (q : queue world)
    (client_sock : world) :
  ((length q < QUEUE_MAXSIZE)%nat ->
   accept_one E q client_sock = ((q ++ [client_sock])%list, Ok tt client_sock))
  /\ ((QUEUE_MAXSIZE <= length q)%nat ->
      exists w' resp,
        accept_one E q client_sock = (q, Ok tt w')
        /\ sent w' = (sent client_sock ++ [resp])%list
        /\ response_status resp = Some 503
        /\ contains (CRLF ++ "Retry-After: 5" ++ CRLF) resp = true
        /\ announces_close resp = true
        /\ closed w' = true
        /\ inbox w' = inbox client_sock).
Proof.
  unfold accept_one, submit. split; intros Hq.
  - apply Nat.ltb_lt in Hq. now rewrite Hq.
  - apply Nat.ltb_ge in Hq. rewrite Hq.
    do 2 eexists. split; [reflexivity|].
    split; [reflexivity|]. split; [reflexivity|].
    pose proof (overload_response_lines
                  (date_at E (ticks client_sock)) "503 Service Unavailable")
      as [Hretry Hclose].
    split; [exact Hretry|]. split; [exact Hclose|]. split; reflexivity.
Qed.

Lemma overload_is_503_and_close_witness :
  accept_one Demo.demo [] (Demo.fresh []) = ([Demo.fresh []], Ok tt (Demo.fresh []))
  /\ exists w' resp,
       accept_one Demo.demo (repeat (Demo.fresh []) QUEUE_MAXSIZE) (Demo.fresh [])
       = (repeat (Demo.fresh []) QUEUE_MAXSIZE, Ok tt w')
       /\ sent w' = [resp] /\ response_status resp = Some 503 /\ closed w' = true.
Proof.
  split.
  - apply (proj1 (overload_is_503_and_close Demo.demo [] (Demo.fresh []))).
    vm_compute. lia.
  - destruct (proj2 (overload_is_503_and_close Demo.demo
                       (repeat (Demo.fresh []) QUEUE_MAXSIZE) (Demo.fresh [])))
      as (w' & resp & Hrun & Hsent & Hstatus & _ & _ & Hclosed & _).
    + rewrite repeat_length. lia.
    + exists w', resp. repeat split; assumption.
Defined.

(** X26: a worker serves every connection it gets, up to the item that
    ends it, whether or not [handle_connection] raised on an earlier one (the
    exception is caught) and, as long as every one of them returns or
    raises, nothing it gets after the ending item is served. *)
Theorem worker_survives_exceptions (E : env) (socks : list world)
    (more : list (option world)) :
  forallb (returns_or_raises E) socks = true ->
  worker E (map Some socks ++ None :: more)%list
  = map (handle_connection E) socks.
Proof.
  induction socks as [|sock socks IH]; intros H; [reflexivity|].
  cbn [forallb] in H. apply Bool.andb_true_iff in H as [Hsock Hsocks].
  cbn [map app worker]. unfold returns_or_raises in Hsock.
  destruct (handle_connection E sock) as [n w'|e w'|w'];
    [| |discriminate Hsock]; now rewrite (IH Hsocks).
Qed.

Lemma worker_survives_exceptions_witness :
  exists w1 w2,
    worker Demo.demo
      [Some (Demo.fresh [Demo.request "GET / HTTP/1.1 extra" [Demo.good_host] ""]);
       Some (Demo.fresh [Demo.request "GET /a.txt HTTP/1.0" [Demo.good_host] ""]);
       None;
       Some (Demo.fresh [Demo.request "GET /a.txt HTTP/1.0" [Demo.good_host] ""])]
    = [Raised ValueError w1; Ok 1%nat w2]
    /\ closed w1 = false /\ closed w2 = true.
Proof.
  pose proof (worker_survives_exceptions Demo.demo
                [Demo.fresh [Demo.request "GET / HTTP/1.1 extra" [Demo.good_host] ""];
                 Demo.fresh [Demo.request "GET /a.txt HTTP/1.0" [Demo.good_host] ""]]
                [Some (Demo.fresh [Demo.request "GET /a.txt HTTP/1.0"
                                     [Demo.good_host] ""])]
                eq_refl) as H.
  do 2 eexists. split; [exact H | split; reflexivity].
Defined.

End PoolFacts.

(* ================================================================== *)
(** ** The status line and the path check *)

Module StatusLine.
Import Py Http Server Statements Conditions Run.

Lemma statuses_checked :
  forallb (fun k => status_round_trips (100 + Z.of_nat k)) (seq 0 900) = true.
Proof. vm_compute. reflexivity. Qed.

Lemma status_checked (status : Z) :
  100 <= status <= 999 -> status_round_trips status = true.
Proof.
  intros Hrange.
  pose proof (proj1 (forallb_forall _ _) statuses_checked
                (Z.to_nat (status - 100))) as H.
  cbv beta in H. replace (100 + Z.of_nat (Z.to_nat (status - 100))) with status in H by lia.
  apply H. apply in_seq. lia.
Qed.

Lemma encode_ascii (c : ascii) (s : string) :
  (code c <? 128) = true -> encode (String c s) = String c (encode s).
Proof. intros H. cbn [encode]. now rewrite H. Qed.

(** X27: the status a response is built with can be read back from its
    first line: for every three-digit status, whatever the reason, the
    headers and the body, the three characters after [HTTP/1.1 ] are the
    status in decimal.  The body follows the head as it is. *)
Theorem status_line_round_trip (status : Z) (reason : string) (headers : dict)
    (body : string) :
  100 <= status <= 999 ->
  response_status (build_response status reason headers body) = Some status
  /\ build_response status reason headers body
     = build_response status reason headers "" ++ body.
Proof.
  intros Hrange. split.
  - pose proof (status_checked status Hrange) as Hok.
    unfold status_round_trips in Hok.
    destruct (str status) as [|a [|b [|c [|d rest]]]] eqn:Hstr; try discriminate Hok.
    apply Bool.andb_true_iff in Hok as [Hok Hint].
    apply Bool.andb_true_iff in Hok as [Hok Hc].
    apply Bool.andb_true_iff in Hok as [Ha Hb].
    destruct (int (String a (String b (String c "")))) as [n|] eqn:Hn;
      [|discriminate Hint].
    apply Z.eqb_eq in Hint. subst n.
    unfold build_response, response_status. rewrite Hstr. cbn [append].
    repeat (rewrite encode_ascii; [|first [reflexivity | assumption]]).
    cbn [append]. unfold startswith, slice.
    change (Z.to_nat 9) with 9%nat. change (Z.to_nat (12 - 9)) with 3%nat.
    cbn [String.prefix substring]. cbn. exact Hn.
  - unfold build_response. now rewrite append_assoc, append_empty_r.
Qed.

Lemma status_line_round_trip_witness :
  response_status (build_response 201 "Created" [("Content-Length", "2")] "{}")
  = Some 201.
Proof.
  apply (status_line_round_trip 201 "Created" [("Content-Length", "2")] "{}").
  lia.
Defined.

(** X28: the path check refuses exactly the paths in which [..] occurs
    anywhere (also inside a file name) and the paths that start with [//]:
    a path that starts with [/../] is among the first, so that test never
    decides. *)
Theorem traversal_is_dotdot_or_double_slash (path : string) :
  (startswith path "/../" = true -> contains ".." path = true)
  /\ traversal path = contains ".." path || startswith path "//".
Proof.
  assert (H : startswith path "/../" = true -> contains ".." path = true).
  { unfold startswith. intros Hp.
    rewrite (Framing.prefix_split "/../" path Hp). reflexivity. }
  split; [exact H|].
  unfold traversal.
  destruct (startswith path "/../") eqn:Hp; [|now rewrite Bool.orb_false_r].
  now rewrite (H eq_refl).
Qed.

End StatusLine.
